(** * Criminalitat a Suïssa: filtering, categorisation and aggregation

    A shallow embedding of the data pipeline of [app.py]: the three sidebar
    filters, the KPI metrics, the keyword categoriser
    [categoritza_delicte] (defined twice in the script), the group-by
    aggregations behind each chart and the percentage-of-group columns.

    Conventions of the embedding.
    - A Python [str] is a [string] holding its UTF-8 encoding.  Substring
      tests on code points and on UTF-8 bytes agree, so ['vol' in d] is a
      byte-level substring test here.
    - [str.lower] is a built-in whose Unicode case table is not part of the
      script; it is a section variable [lower], and every result below
      holds whatever that function is.  [lower_utf8] is the instance used
      to evaluate examples (ASCII and Latin-1 letters).
    - An integer column holds [Z]; a float64 value is [float64] below:
      NaN, the two infinities, or the exact rational a finite float
      stands for (rounding is outside the model).
    - Every cell of the loaded table holds a value of the type of its
      column; missing values are outside the model. *)

From Stdlib Require Import List ZArith QArith Qround Qabs String Ascii Bool Lia
  Permutation Sorted DecimalString.
Import ListNotations.

Local Open Scope string_scope.
Local Open Scope list_scope.
Local Open Scope Z_scope.

(** ** Strings *)

(** [sub in s] of Python: [sub] occurs in [s] as a contiguous substring. *)
Fixpoint str_in (sub s : string) : bool :=
  if String.prefix sub s then true
  else match s with
       | EmptyString => false
       | String _ s' => str_in sub s'
       end.

Definition ascii_lower (c : ascii) : ascii :=
  let n := nat_of_ascii c in
  if ((65 <=? n) && (n <=? 90))%nat then ascii_of_nat (n + 32) else c.

(** Lower-casing of UTF-8 text restricted to ASCII and the Latin-1
    supplement: [A-Z] and the two-byte sequences [C3 80 .. C3 9E] (the
    multiplication sign [C3 97] apart) move to their lower-case forms. *)
Fixpoint lower_utf8 (s : string) : string :=
  match s with
  | EmptyString => EmptyString
  | String c s' =>
      if (nat_of_ascii c =? 195)%nat then
        match s' with
        | EmptyString => String c EmptyString
        | String c2 s'' =>
            let n := nat_of_ascii c2 in
            if ((128 <=? n) && (n <=? 158) && negb (n =? 151))%nat
            then String c (String (ascii_of_nat (n + 32)) (lower_utf8 s''))
            else String c (String c2 (lower_utf8 s''))
        end
      else String (ascii_lower c) (lower_utf8 s')
  end.

(** ** The categoriser *)

Module Cat.
Definition Robatoris := "Robatoris / Détournements / Danys".
Definition Violencia := "Violència / Homicidi".
Definition Frau := "Frau / Corrupció".
Definition Sexuals := "Infraccions sexuals".
Definition Altres := "Altres".

  (** The five categories, in the priority order of the tests. *)
Definition all : list string :=
    [Robatoris; Violencia; Frau; Sexuals; Altres].
End Cat.

Section Categorizer.
Variable lower : string -> string.

  (** First definition, section "Resolució de casos". *)
Definition categoritza_delicte (d : string) : string :=
    let d_lower := lower d in
    if str_in "vol" d_lower || str_in "détournement" d_lower
       || str_in "dommages" d_lower
    then Cat.Robatoris
    else if str_in "violence" d_lower || str_in "lésions" d_lower
            || str_in "meurtre" d_lower
    then Cat.Violencia
    else if str_in "fraude" d_lower || str_in "escroquerie" d_lower
            || str_in "corruption" d_lower
    then Cat.Frau
    else if str_in "sexuel" d_lower || str_in "inceste" d_lower
            || str_in "prostitution" d_lower
    then Cat.Sexuals
    else Cat.Altres.

  (** Second definition, section "Evolució temporal per categoria"; from
      there on the name is bound to this one. *)
Definition categoritza_delicte' (d : string) : string :=
    let d_lower := lower d in
    if str_in "vol" d_lower || str_in "détournement" d_lower
       || str_in "dommages" d_lower
    then Cat.Robatoris
    else if str_in "violence" d_lower || str_in "lésions" d_lower
            || str_in "meurtre" d_lower
    then Cat.Violencia
    else if str_in "fraude" d_lower || str_in "escroquerie" d_lower
            || str_in "corruption" d_lower
    then Cat.Frau
    else if str_in "sexuel" d_lower || str_in "inceste" d_lower
            || str_in "prostitution" d_lower
    then Cat.Sexuals
    else Cat.Altres.

  (** The categoriser as the specification words it: four keyword groups
      in priority order, the first group with a keyword occurring in the
      lower-cased label wins, and no match gives "Altres". *)
Definition keyword_groups : list (list string * string) :=
    [ (["vol"; "détournement"; "dommages"], Cat.Robatoris);
      (["violence"; "lésions"; "meurtre"], Cat.Violencia);
      (["fraude"; "escroquerie"; "corruption"], Cat.Frau);
      (["sexuel"; "inceste"; "prostitution"], Cat.Sexuals) ].

Definition group_matches (s : string) (g : list string * string) : bool :=
    existsb (fun kw => str_in kw s) (fst g).

Definition first_match (groups : list (list string * string))
             (s : string) : string :=
    match find (group_matches s) groups with
    | Some g => snd g
    | None => Cat.Altres
    end.
End Categorizer.

(** ** Numbers *)

(** A float64 value: finite values are the exact rationals they stand for. *)
Inductive float64 : Type :=
| NaN
| PInf
| NInf
| Fin (q : Q).

Definition is_finite (x : float64) : bool :=
  match x with Fin _ => true | _ => false end.

Definition fadd (a b : float64) : float64 :=
  match a, b with
  | NaN, _ | _, NaN => NaN
  | PInf, NInf | NInf, PInf => NaN
  | PInf, _ | _, PInf => PInf
  | NInf, _ | _, NInf => NInf
  | Fin x, Fin y => Fin (x + y)
  end.

Definition fsum (l : list float64) : float64 := fold_right fadd (Fin 0) l.

(** Equality of float values up to the representation of the rational. *)
Definition feq (a b : float64) : Prop :=
  match a, b with
  | NaN, NaN | PInf, PInf | NInf, NInf => True
  | Fin x, Fin y => x == y
  | _, _ => False
  end.

(** [Series.sum] of an integer column; 0 on the empty column. *)
Definition isum (l : list Z) : Z := fold_right Z.add 0 l.

Definition qsum (l : list Q) : Q := fold_right Qplus 0%Q l.

(** [Series.mean] of a float column: NaN on the empty column. *)
Definition mean (l : list Q) : float64 :=
  match l with
  | [] => NaN
  | _ :: _ => Fin (qsum l / inject_Z (Z.of_nat (List.length l)))
  end.

(** The ['first'] reduction: the first value of the group. *)
Definition first {A : Type} (l : list A) : option A := hd_error l.

(** True division of an integer Series by an integer scalar.  Unlike the
    division of two Python scalars it raises nothing on a zero divisor:
    0/0 is NaN and x/0 is an infinity with the sign of x. *)
Definition truediv (x t : Z) : float64 :=
  if t =? 0 then
    if x =? 0 then NaN else if 0 <? x then PInf else NInf
  else Fin (inject_Z x / inject_Z t).

(** ** The loaded table and the sidebar selection *)

(** One record of the dataset, with the columns the script reads. *)
Record Row : Type := mkRow {
  Any : Z;
  Canto_norm : string;
  Tipus_de_Delicte : string;
  Nivell_de_Resolucio : string;
  Nombre_de_Delictes : Z;
  Taxa_Criminalitat_per_1000 : Q;
  Percentatge_Casos_Resolts : Q;
  PIB_per_Capita : Q;
  Percentatge_Estrangers : Q;
  Poblacio_Total : Z
}.

Record Selection : Type := mkSelection {
  selected_year : Z * Z;
  selected_canton : string;
  selected_offence : list string
}.

(** [Series.between(lo, hi)], inclusive on both sides. *)
Definition between (lo hi x : Z) : bool := (lo <=? x) && (x <=? hi).

(** [Series.isin(vals)]. *)
Definition isin (vals : list string) (x : string) : bool :=
  existsb (String.eqb x) vals.

(** "Aplicar filtres": three successive boolean-mask selections, the
    second one skipped when the canton selector shows "Tots". *)
Definition df_filtered (df : list Row) (sel : Selection) : list Row :=
  let df_filtered :=
    filter (fun r => between (fst (selected_year sel))
                             (snd (selected_year sel)) (Any r)) df in
  let df_filtered :=
    if negb (selected_canton sel =? "Tots")%string
    then filter (fun r => (Canto_norm r =? selected_canton sel)%string)
                df_filtered
    else df_filtered in
  filter (fun r => isin (selected_offence sel) (Tipus_de_Delicte r))
         df_filtered.

(** The filter as the specification words it: one row predicate. *)
Definition passes (sel : Selection) (r : Row) : Prop :=
  fst (selected_year sel) <= Any r <= snd (selected_year sel)
  /\ (selected_canton sel = "Tots" \/ Canto_norm r = selected_canton sel)
  /\ In (Tipus_de_Delicte r) (selected_offence sel).

Definition passesb (sel : Selection) (r : Row) : bool :=
  between (fst (selected_year sel)) (snd (selected_year sel)) (Any r)
  && ((selected_canton sel =? "Tots")%string
      || (Canto_norm r =? selected_canton sel)%string)
  && isin (selected_offence sel) (Tipus_de_Delicte r).

(** ** KPI metrics *)

Definition total_crimes (view : list Row) : Z :=
  isum (map Nombre_de_Delictes view).

Definition avg_crime_rate (view : list Row) : float64 :=
  mean (map Taxa_Criminalitat_per_1000 view).

Definition avg_resolution (view : list Row) : float64 :=
  mean (map Percentatge_Casos_Resolts view).

(** Decimal digits of a non-negative integer. *)
Definition digits (n : Z) : string :=
  NilZero.string_of_uint (N.to_uint (Z.to_N n)).

(** Insert a comma before every block of three digits, from the right:
    [acc] is the text already produced and [n] the number of digits in it. *)
Fixpoint commas_from_right (rev_digits : list ascii) (n : nat)
         (acc : string) : string :=
  match rev_digits with
  | [] => acc
  | c :: rest =>
      let acc := if ((0 <? n) && (n mod 3 =? 0))%nat
                 then String c (String "," acc) else String c acc in
      commas_from_right rest (S n) acc
  end.

(** The format [{:,}] of an [int]. *)
Definition format_int_commas (z : Z) : string :=
  ((if (z <? 0)%Z then "-" else "")
   ++ commas_from_right (rev (list_ascii_of_string (digits (Z.abs z))))
                        0%nat "")%string.

Definition round_half_even (q : Q) : Z :=
  let f := Qfloor q in
  match Qcompare (q - inject_Z f) (1 # 2) with
  | Lt => f
  | Gt => f + 1
  | Eq => if Z.even f then f else f + 1
  end.

Definition two_digits (n : Z) : string :=
  ((if (n <? 10)%Z then "0" else "") ++ digits n)%string.

(** The format [{:.2f}] of a float. *)
Definition format_2f (x : float64) : string :=
  match x with
  | NaN => "nan"
  | PInf => "inf"
  | NInf => "-inf"
  | Fin q =>
      let a := round_half_even (Qabs q * 100) in
      ((if Qlt_le_dec q 0%Q then "-" else "")
       ++ digits (a / 100)%Z ++ "." ++ two_digits (a mod 100)%Z)%string
  end.

(** The three texts handed to [st.metric]. *)
Definition kpi_metrics (view : list Row) : string * string * string :=
  (format_int_commas (total_crimes view),
   format_2f (avg_crime_rate view),
   (format_2f (avg_resolution view) ++ "%")%string).

(** ** Group-by *)

(** Types usable as group keys: an equality test and the order in which
    [groupby] lists the groups. *)
Class Key (K : Type) : Type := {
  keqb : K -> K -> bool;
  kleb : K -> K -> bool
}.

(** The equality test of a key type decides equality. *)
Class KeyOk (K : Type) `{Key K} : Prop := {
  keqb_eq : forall a b : K, keqb a b = true <-> a = b
}.

(** The order of a key type compares any two keys. *)
Class KeyTotal (K : Type) `{Key K} : Prop := {
  kleb_total : forall a b : K, kleb a b = true \/ kleb b a = true
}.

#[export] Instance Key_Z : Key Z := {| keqb := Z.eqb; kleb := Z.leb |}.

#[export] Instance Key_string : Key string :=
  {| keqb := String.eqb; kleb := String.leb |}.

(** Several key columns: compared column by column, from the left. *)
#[export] Instance Key_prod {A B : Type} `{Key A} `{Key B} : Key (A * B) :=
  {| keqb := fun a b => keqb (fst a) (fst b) && keqb (snd a) (snd b);
     kleb := fun a b => if keqb (fst a) (fst b) then kleb (snd a) (snd b)
                        else kleb (fst a) (fst b) |}.

Section GroupBy.
Context {R K : Type} `{Key K}.
Variable key : R -> K.

  (** The rows of the group with key [k], in table order. *)
Definition group_rows (k : K) (rows : list R) : list R :=
    filter (fun r => keqb (key r) k) rows.

Fixpoint distinct (l : list K) : list K :=
    match l with
    | [] => []
    | k :: l' => k :: filter (fun k' => negb (keqb k' k)) (distinct l')
    end.

Fixpoint insert_key (k : K) (l : list K) : list K :=
    match l with
    | [] => [k]
    | k' :: l' => if kleb k k' then k :: l else k' :: insert_key k l'
    end.

Definition sort_keys (l : list K) : list K := fold_right insert_key [] l.

  (** The observed keys, each once, in key order. *)
Definition group_keys (rows : list R) : list K :=
    sort_keys (distinct (map key rows)).

  (** [rows.groupby(key).agg(...).reset_index()]: one output row per
      observed key, holding the key and the reduction of its group. *)
Definition groupby {V : Type} (agg : list R -> V) (rows : list R)
    : list (K * V) :=
    map (fun k => (k, agg (group_rows k rows))) (group_keys rows).

  (** [rows.groupby(key)[val].transform(lambda x: 100 * x / x.sum())]:
      one value per row of the table, in table order. *)
Definition transform_pct (val : R -> Z) (rows : list R) : list float64 :=
    map (fun r => truediv (100 * val r)
                          (isum (map val (group_rows (key r) rows))))
        rows.
End GroupBy.

(** ** Aggregations over the filtered view *)

Definition Total_de_casos : string := "Total de casos".
Definition Resolts : string := "Resolts".
Definition Switzerland : string := "Switzerland".

(** "Mapes per cantó": mean rate and total count per (canton, year). *)
Definition map_data (view : list Row) : list (string * Z * (float64 * Z)) :=
  groupby (fun r => (Canto_norm r, Any r))
          (fun g => (mean (map Taxa_Criminalitat_per_1000 g),
                     isum (map Nombre_de_Delictes g)))
          view.

Definition df_scatter (view : list Row) : list Row :=
  filter (fun r => (Nivell_de_Resolucio r =? Total_de_casos)%string) view.

Definition scatter_data (view : list Row)
  : list (string * Z * (float64 * option Q * option Q * option Z)) :=
  groupby (fun r => (Canto_norm r, Any r))
          (fun g => (mean (map Taxa_Criminalitat_per_1000 g),
                     first (map PIB_per_Capita g),
                     first (map Percentatge_Estrangers g),
                     first (map Poblacio_Total g)))
          (df_scatter view).

(** "Correlació socioeconòmica": the per-canton table handed to [corr()]. *)
Definition corr_agg (view : list Row)
  : list (string * (Z * float64 * float64 * float64)) :=
  groupby Canto_norm
          (fun g => (isum (map Nombre_de_Delictes g),
                     mean (map PIB_per_Capita g),
                     mean (map Percentatge_Estrangers g),
                     mean (map (fun r => inject_Z (Poblacio_Total r)) g)))
          view.

(** A row of a count table: its key columns and [Nombre_de_Delictes]. *)
Definition CountRow (K : Type) : Type := (K * Z)%type.

(** A count table with the [Percentatge] column added. *)
Definition PctRow (K : Type) : Type := (K * Z * float64)%type.

Definition with_Percentatge {K G : Type} `{Key G} (gkey : K -> G)
           (t : list (CountRow K)) : list (PctRow K) :=
  combine t (transform_pct (fun e => gkey (fst e)) snd t).

Section Pipeline.
Variable lower : string -> string.

  (** "Resolució de casos": counts per (offence type, resolution level). *)
Definition stacked_data (view : list Row) : list (CountRow (string * string)) :=
    groupby (fun r => (Tipus_de_Delicte r, Nivell_de_Resolucio r))
            (fun g => isum (map Nombre_de_Delictes g))
            view.

  (** [stacked_data] with its [Categorie] column, then summed per
      (category, resolution level). *)
Definition stacked_data_cat (view : list Row)
    : list (CountRow (string * string)) :=
    groupby (fun e : CountRow (string * string) * string =>
               (snd e, snd (fst (fst e))))
            (fun g => isum (map (fun e => snd (fst e)) g))
            (map (fun e => (e, categoritza_delicte lower (fst (fst e))))
                 (stacked_data view)).

  (** The percentage of each (category, level) within its category. *)
Definition stacked_pct (view : list Row) : list (PctRow (string * string)) :=
    with_Percentatge fst (stacked_data_cat view).

  (** The rows carried into the stacked bar chart: 'Total de casos' removed
      after the percentages were computed. *)
Definition stacked_chart (view : list Row) : list (PctRow (string * string)) :=
    filter (fun e => negb (snd (fst (fst e)) =? Total_de_casos)%string)
           (stacked_pct view).

  (** [df_filtered] once its [Categorie] column is assigned. *)
Definition with_Categorie (view : list Row) : list (Row * string) :=
    map (fun r => (r, categoritza_delicte' lower (Tipus_de_Delicte r))) view.

Definition resolution_data (view : list Row) : list (Row * string) :=
    filter (fun e => negb (Nivell_de_Resolucio (fst e) =? Total_de_casos)%string)
           (with_Categorie view).

  (** Counts per (year, category, resolution level), 'Total de casos'
      rows left out beforehand. *)
Definition resolution_counts (view : list Row)
    : list (CountRow (Z * string * string)) :=
    groupby (fun e => (Any (fst e), snd e, Nivell_de_Resolucio (fst e)))
            (fun g => isum (map (fun e => Nombre_de_Delictes (fst e)) g))
            (resolution_data view).

  (** The percentage of each level within its (year, category). *)
Definition resolution_pct (view : list Row)
    : list (PctRow (Z * string * string)) :=
    with_Percentatge fst (resolution_counts view).

  (** The rows carried into the resolution line chart. *)
Definition line_res_chart (view : list Row)
    : list (PctRow (Z * string * string)) :=
    filter (fun e => (snd (fst (fst e)) =? Resolts)%string)
           (resolution_pct view).

  (** "Diferències entre cantons per categoria". *)
Definition cantons_cat (view : list Row) : list (CountRow (string * string)) :=
    groupby (fun e => (Canto_norm (fst e), snd e))
            (fun g => isum (map (fun e => Nombre_de_Delictes (fst e)) g))
            (filter (fun e => negb (Canto_norm (fst e) =? Switzerland)%string)
                    (with_Categorie view)).
End Pipeline.

(** ** Frames as objects

    The script binds names to DataFrame objects.  [frame[mask]] builds a
    new object and leaves [frame] alone, while [frame['Categorie'] = ...]
    writes into the object the name refers to.  The heap below keeps the
    objects so that the difference shows.  The tables built by [groupby]
    are new values of their own ([stacked_data], whose [Categorie] column
    the script also assigns, is one of them) and are not kept in the
    heap. *)

Record Frame : Type := mkFrame {
  frame_rows : list Row;
  frame_Categorie : option (list string)
}.

(** Keep the entries of [l] whose mask entry is [true]. *)
Fixpoint select {A : Type} (mask : list bool) (l : list A) : list A :=
  match mask, l with
  | b :: mask', x :: l' => if b then x :: select mask' l' else select mask' l'
  | _, _ => []
  end.

(** [frame[mask]]: the rows at which the mask holds, every column kept. *)
Definition boolean_index (F : Frame) (mask : Row -> bool) : Frame :=
  let m := map mask (frame_rows F) in
  mkFrame (select m (frame_rows F)) (option_map (select m) (frame_Categorie F)).

(** [frame['Categorie'] = frame['Tipus_de_Delicte'].apply(f)]. *)
Definition assign_Categorie (F : Frame) (f : string -> string) : Frame :=
  mkFrame (frame_rows F)
          (Some (map (fun r => f (Tipus_de_Delicte r)) (frame_rows F))).

Definition Heap : Type := list Frame.

(** A step of the script: it fails only on a dangling reference. *)
Definition Script (A : Type) : Type := Heap -> option (A * Heap).

Definition ret {A : Type} (a : A) : Script A := fun h => Some (a, h).

Definition bind {A B : Type} (m : Script A) (k : A -> Script B) : Script B :=
  fun h => match m h with
           | Some (a, h') => k a h'
           | None => None
           end.

Notation "x <- m ;; k" := (bind m (fun x => k))
  (at level 61, m at next level, right associativity).

Fixpoint update {A : Type} (n : nat) (a : A) (l : list A) : list A :=
  match n, l with
  | _, [] => []
  | O, _ :: l' => a :: l'
  | S n', x :: l' => x :: update n' a l'
  end.

(** Evaluate [frame[mask]] and return the reference of the new object. *)
Definition getitem (p : nat) (mask : Row -> bool) : Script nat :=
  fun h => match nth_error h p with
           | Some F => Some (List.length h, h ++ [boolean_index F mask])
           | None => None
           end.

(** Execute [frame['Categorie'] = ...] on the object at [p]. *)
Definition setitem_Categorie (p : nat) (f : string -> string) : Script unit :=
  fun h => match nth_error h p with
           | Some F => Some (tt, update p (assign_Categorie F f) h)
           | None => None
           end.

(** The frames the script has bound when it ends. *)
Record Frames : Type := mkFrames {
  ref_df_filtered : nat;
  ref_df_scatter : nat;
  ref_resolution_data : nat;
  ref_cantons_rows : nat
}.

Section App.
Variable lower : string -> string.

  (** The frame-level statements of the script, in program order: the
      three filters, [df_scatter], the assignment of [Categorie] to
      [df_filtered], [resolution_data] and the selection feeding
      [cantons_cat]. *)
Definition app (df : nat) (sel : Selection) : Script Frames :=
    df_filtered <-
      getitem df (fun r => between (fst (selected_year sel))
                                   (snd (selected_year sel)) (Any r)) ;;
    df_filtered <-
      (if negb (selected_canton sel =? "Tots")%string
       then getitem df_filtered
                    (fun r => (Canto_norm r =? selected_canton sel)%string)
       else ret df_filtered) ;;
    df_filtered <-
      getitem df_filtered
              (fun r => isin (selected_offence sel) (Tipus_de_Delicte r)) ;;
    df_scatter <-
      getitem df_filtered
              (fun r => (Nivell_de_Resolucio r =? Total_de_casos)%string) ;;
    _ <- setitem_Categorie df_filtered (categoritza_delicte' lower) ;;
    resolution_data <-
      getitem df_filtered
              (fun r => negb (Nivell_de_Resolucio r =? Total_de_casos)%string) ;;
    cantons_rows <-
      getitem df_filtered
              (fun r => negb (Canto_norm r =? Switzerland)%string) ;;
    ret (mkFrames df_filtered df_scatter resolution_data cantons_rows).
End App.

(** ** Percentages within a group, as a property of a table *)

Section Shares.
Context {K G : Type} `{Key G}.
Variable gkey : K -> G.

  (** The rows of a percentage table that belong to group [g]. *)
Definition group_of (g : G) (t : list (PctRow K)) : list (PctRow K) :=
    filter (fun e => keqb (gkey (fst (fst e))) g) t.

Definition group_total (g : G) (t : list (PctRow K)) : Z :=
    isum (map (fun e => snd (fst e)) (group_of g t)).

Definition group_pcts (g : G) (t : list (PctRow K)) : list float64 :=
    map snd (group_of g t).

  (** In every group whose total is not zero the percentages add up
    to 100. *)
Definition sums_to_100 (t : list (PctRow K)) : Prop :=
  forall g, group_total g t <> 0 -> feq (fsum (group_pcts g t)) (Fin 100).

(** In every group whose total is zero the percentages are all NaN. *)
Definition nan_on_zero (t : list (PctRow K)) : Prop :=
  forall g, group_total g t = 0 -> Forall (fun p => p = NaN) (group_pcts g t).
End Shares.

(** ** A row taking part in an aggregation *)

(** Row [r] belongs to a group of the table behind the map and the time
    series, and the table has the output row of that group. *)
Definition in_map_data (view : list Row) (r : Row) : Prop :=
  let g := group_rows (fun x => (Canto_norm x, Any x))
                      (Canto_norm r, Any r) view in
  In r g
  /\ In (Canto_norm r, Any r,
         (mean (map Taxa_Criminalitat_per_1000 g),
          isum (map Nombre_de_Delictes g)))
        (map_data view).

Definition in_scatter_data (view : list Row) (r : Row) : Prop :=
  let g := group_rows (fun x => (Canto_norm x, Any x))
                      (Canto_norm r, Any r) (df_scatter view) in
  In r g
  /\ In (Canto_norm r, Any r,
         (mean (map Taxa_Criminalitat_per_1000 g),
          first (map PIB_per_Capita g),
          first (map Percentatge_Estrangers g),
          first (map Poblacio_Total g)))
        (scatter_data view).

Definition in_corr_agg (view : list Row) (r : Row) : Prop :=
  let g := group_rows Canto_norm (Canto_norm r) view in
  In r g
  /\ In (Canto_norm r,
         (isum (map Nombre_de_Delictes g),
          mean (map PIB_per_Capita g),
          mean (map Percentatge_Estrangers g),
          mean (map (fun x => inject_Z (Poblacio_Total x)) g)))
        (corr_agg view).

(** Row [r] is among the rows the three KPI metrics of the filtered view
    are computed from. *)
Definition in_kpi (df : list Row) (sel : Selection) (r : Row) : Prop :=
  In r (filter (passesb sel) df)
  /\ total_crimes (df_filtered df sel)
     = isum (map Nombre_de_Delictes (filter (passesb sel) df))
  /\ avg_crime_rate (df_filtered df sel)
     = mean (map Taxa_Criminalitat_per_1000 (filter (passesb sel) df))
  /\ avg_resolution (df_filtered df sel)
     = mean (map Percentatge_Casos_Resolts (filter (passesb sel) df)).

(** ** The sidebar defaults and the remaining tables *)

(** [Series.min()] and [Series.max()] of an integer column.  On the empty
    column they give NaN, which the [int(...)] around them refuses. *)
Definition column_min (l : list Z) : option Z :=
  match l with
  | [] => None
  | x :: l' => Some (fold_left Z.min l' x)
  end.

Definition column_max (l : list Z) : option Z :=
  match l with
  | [] => None
  | x :: l' => Some (fold_left Z.max l' x)
  end.

(** The options of the canton selector: "Tots", then the cantons of the
    table, each once, in ascending order. *)
Definition canton_options (df : list Row) : list string :=
  "Tots" :: sort_keys (distinct (map Canto_norm df)).

(** [df['Tipus_de_Delicte'].unique()]: each offence type once, in order of
    first appearance. *)
Definition offence_options (df : list Row) : list string :=
  distinct (map Tipus_de_Delicte df).

(** The selection the sidebar shows before any interaction: the full year
    range, "Tots" and every offence type.  [None] stands for the
    [ValueError] of [int(NaN)] on a table without rows. *)
Definition default_selection (df : list Row) : option Selection :=
  match column_min (map Any df), column_max (map Any df) with
  | Some lo, Some hi => Some (mkSelection (lo, hi) "Tots" (offence_options df))
  | _, _ => None
  end.

(** The rows of [map_data] handed to the choropleth: those of the last
    selected year. *)
Definition map_chart_rows (view : list Row) (sel : Selection)
  : list (string * Z * (float64 * Z)) :=
  filter (fun e => snd (fst e) =? snd (selected_year sel)) (map_data view).

(** "Evolució temporal per categoria": counts per (year, category). *)
Definition temporal_data (lower : string -> string) (view : list Row)
  : list (CountRow (Z * string)) :=
  groupby (fun e => (Any (fst e), snd e))
          (fun g => isum (map (fun e => Nombre_de_Delictes (fst e)) g))
          (with_Categorie lower view).

(** "Impacte de característiques socioeconòmiques": per (year, category,
    canton), the count and the first socio-economic values of the group. *)
Definition bubble_data (lower : string -> string) (view : list Row)
  : list (Z * string * string * (Z * option Q * option Q * option Z)) :=
  groupby (fun e => (Any (fst e), snd e, Canto_norm (fst e)))
          (fun g => (isum (map (fun e => Nombre_de_Delictes (fst e)) g),
                     first (map (fun e => PIB_per_Capita (fst e)) g),
                     first (map (fun e => Percentatge_Estrangers (fst e)) g),
                     first (map (fun e => Poblacio_Total (fst e)) g)))
          (with_Categorie lower view).

(** The twelve keywords of the categoriser. *)
Definition all_keywords : list string :=
  flat_map fst keyword_groups.

(** ** A small table for evaluation *)

Definition sample_df : list Row :=
  [ mkRow 2015 "Zuric" "Vol simple" "Total de casos" 10 (5 # 2) 60 80000 (27 # 1) 1500000;
    mkRow 2015 "Zuric" "Vol simple" "Resolts" 6 (5 # 2) 60 80000 (27 # 1) 1500000;
    mkRow 2015 "Zuric" "Vol simple" "No resolts" 4 (5 # 2) 60 80000 (27 # 1) 1500000;
    mkRow 2015 "Switzerland" "Vol simple" "Total de casos" 100 (3 # 1) 55 70000 (25 # 1) 8300000;
    mkRow 2015 "Switzerland" "Vol simple" "Resolts" 60 (3 # 1) 55 70000 (25 # 1) 8300000;
    mkRow 2016 "Bern" "Escroquerie" "Resolts" 0 (1 # 1) 0 65000 (16 # 1) 1000000;
    mkRow 2009 "Bern" "Vol simple" "Resolts" 7 (1 # 1) 40 65000 (16 # 1) 1000000 ].

Definition sample_sel : Selection :=
  mkSelection (2015, 2016) "Tots" ["Vol simple"; "Escroquerie"].

Definition sample_view : list Row := df_filtered sample_df sample_sel.

(** The Switzerland row of [sample_df] with resolution level 'Resolts'. *)
Definition sample_row : Row :=
  mkRow 2015 "Switzerland" "Vol simple" "Resolts" 60 (3 # 1) 55 70000 (25 # 1) 8300000.

(** The Switzerland row of [sample_df] with level 'Total de casos'. *)
Definition sample_total_row : Row :=
  mkRow 2015 "Switzerland" "Vol simple" "Total de casos" 100 (3 # 1) 55 70000 (25 # 1) 8300000.

(** The initial heap of the examples: the loaded table alone. *)
Definition sample_heap : Heap := [mkFrame sample_df None].

(** * Properties *)

(** ** Lists and strings *)

Lemma filter_filter {A : Type} (f g : A -> bool) (l : list A) :
  filter f (filter g l) = filter (fun x => g x && f x) l.
Proof.
  induction l as [|x l IH]; simpl; [reflexivity|].
  destruct (g x); simpl; [destruct (f x)|]; rewrite IH; reflexivity.
Qed.

Lemma select_map {A : Type} (f : A -> bool) (l : list A) :
  select (map f l) l = filter f l.
Proof.
  induction l as [|x l IH]; simpl; [reflexivity|].
  rewrite IH; reflexivity.
Qed.

Lemma select_map_map {A B : Type} (f : A -> bool) (g : A -> B) (l : list A) :
  select (map f l) (map g l) = map g (filter f l).
Proof.
  induction l as [|x l IH]; simpl; [reflexivity|].
  destruct (f x); simpl; rewrite IH; reflexivity.
Qed.

Lemma isin_In (vals : list string) (x : string) :
  isin vals x = true <-> In x vals.
Proof.
  unfold isin. rewrite existsb_exists. split.
  - intros [v [Hv E]]. apply String.eqb_eq in E. subst; assumption.
  - intros Hx. exists x. split; [assumption | apply String.eqb_refl].
Qed.

Lemma between_spec (lo hi x : Z) : between lo hi x = true <-> lo <= x <= hi.
Proof. unfold between. rewrite andb_true_iff, !Z.leb_le. reflexivity. Qed.

Lemma passesb_spec (sel : Selection) (r : Row) :
  passesb sel r = true <-> passes sel r.
Proof.
  unfold passesb, passes.
  rewrite !andb_true_iff, orb_true_iff, between_spec, isin_In, !String.eqb_eq.
  tauto.
Qed.

Lemma df_filtered_filter (df : list Row) (sel : Selection) :
  df_filtered df sel = filter (passesb sel) df.
Proof.
  unfold df_filtered, passesb.
  destruct (selected_canton sel =? "Tots")%string; simpl;
    rewrite !filter_filter; apply filter_ext; intros r;
    rewrite ?andb_true_r, ?andb_assoc; reflexivity.
Qed.

(** ** The categoriser *)

(** C4. The categoriser is a function defined on every label; its value is
    one of the five category names, which are pairwise distinct, so each
    label has exactly one category. *)
Theorem categoritza_delicte_total (lower : string -> string) (d : string) :
  In (categoritza_delicte lower d) Cat.all
  /\ NoDup Cat.all
  /\ List.length Cat.all = 5%nat
  /\ exists! c, In c Cat.all /\ categoritza_delicte lower d = c.
Proof.
  assert (Hin : In (categoritza_delicte lower d) Cat.all).
  { unfold categoritza_delicte, Cat.all.
    repeat match goal with
           | |- context [if ?b then _ else _] => destruct b
           end; simpl; auto 10. }
  split; [exact Hin|]. split.
  - unfold Cat.all.
    repeat (constructor; [simpl; intros H;
                          repeat (destruct H as [H|H]; [discriminate H|]);
                          exact H|]).
    constructor.
  - split; [reflexivity|].
    exists (categoritza_delicte lower d). split; [split; [exact Hin | reflexivity]|].
    intros c [_ E]. exact E.
Qed.

Lemma first_match_cons (s : string) (g : list string * string)
      (groups : list (list string * string)) :
  first_match (g :: groups) s
  = if group_matches s g then snd g else first_match groups s.
Proof. unfold first_match; simpl. destruct (group_matches s g); reflexivity. Qed.

Lemma first_match_app (s : string) (pre post : list (list string * string)) :
  forallb (fun g => negb (group_matches s g)) pre = true ->
  first_match (pre ++ post) s = first_match post s.
Proof.
  induction pre as [|g pre IH]; simpl; [reflexivity|].
  rewrite andb_true_iff. intros [Hg Hpre].
  rewrite first_match_cons.
  destruct (group_matches s g); [discriminate Hg | auto].
Qed.

Lemma categoritza_delicte_first_match (lower : string -> string) (d : string) :
  categoritza_delicte lower d = first_match keyword_groups (lower d).
Proof.
  unfold categoritza_delicte, keyword_groups.
  rewrite !first_match_cons. unfold group_matches; simpl.
  rewrite !orb_false_r, !orb_assoc. reflexivity.
Qed.

(** C5. The categoriser lower-cases the label and returns the category of
    the first keyword group, in the order Robatoris, Violència, Frau,
    Infraccions sexuals, one of whose keywords occurs in it: a group wins
    as soon as no earlier group matches, whatever the later groups do, and
    a label matching no group is "Altres". *)
Theorem categoritza_delicte_priority (lower : string -> string) (d : string) :
  categoritza_delicte lower d = first_match keyword_groups (lower d)
  /\ (forall pre g post,
         keyword_groups = pre ++ g :: post ->
         forallb (fun g' => negb (group_matches (lower d) g')) pre = true ->
         group_matches (lower d) g = true ->
         categoritza_delicte lower d = snd g)
  /\ (forallb (fun g => negb (group_matches (lower d) g)) keyword_groups = true ->
      categoritza_delicte lower d = Cat.Altres).
Proof.
  split; [apply categoritza_delicte_first_match|]. split.
  - intros pre g post E Hpre Hg.
    rewrite categoritza_delicte_first_match, E, first_match_app by exact Hpre.
    rewrite first_match_cons, Hg. reflexivity.
  - intros Hnone.
    rewrite categoritza_delicte_first_match.
    rewrite <- (app_nil_r keyword_groups), first_match_app by exact Hnone.
    reflexivity.
Qed.

(** C9. The two definitions of the categoriser in the script return the
    same category on every label. *)
Theorem categoritza_delicte_duplicates_agree (lower : string -> string)
        (d : string) :
  categoritza_delicte lower d = categoritza_delicte' lower d.
Proof. reflexivity. Qed.

(** ** The filter and the KPI metrics *)

(** C2. The filtered view is the loaded table restricted, in table order,
    to the rows whose year lies in the selected range (bounds included),
    whose canton is the selected one unless "Tots" is selected, and whose
    offence type is among the selected ones. *)
Theorem df_filtered_exact (df : list Row) (sel : Selection) :
  df_filtered df sel = filter (passesb sel) df
  /\ forall r, In r (df_filtered df sel) <-> In r df /\ passes sel r.
Proof.
  split; [apply df_filtered_filter|].
  intros r. rewrite df_filtered_filter, filter_In, passesb_spec. reflexivity.
Qed.

(** C3. The KPI total is the sum of [Nombre_de_Delictes] over exactly the
    rows of the loaded table that pass the three filters. *)
Theorem total_crimes_exact (df : list Row) (sel : Selection) :
  total_crimes (df_filtered df sel)
  = isum (map Nombre_de_Delictes (filter (passesb sel) df))
  /\ forall r, passesb sel r = true <-> passes sel r.
Proof.
  split; [|apply passesb_spec].
  unfold total_crimes. rewrite df_filtered_filter. reflexivity.
Qed.

(** C7. With no offence type selected the filtered view is empty; the
    total is 0, both means are NaN, and the three metric texts are "0",
    "nan" and "nan%". *)
Theorem empty_offence_selection (df : list Row) (year : Z * Z)
        (canton : string) :
  let view := df_filtered df (mkSelection year canton []) in
  view = []
  /\ total_crimes view = 0
  /\ avg_crime_rate view = NaN
  /\ avg_resolution view = NaN
  /\ kpi_metrics view = ("0", "nan", "nan%").
Proof.
  assert (E : df_filtered df (mkSelection year canton []) = []).
  { rewrite df_filtered_filter.
    induction df as [|r df IH]; simpl; [reflexivity|].
    unfold passesb at 1; simpl. rewrite andb_false_r. exact IH. }
  simpl. rewrite E. repeat split; reflexivity.
Qed.

(** ** Group-by *)

#[export] Instance KeyOk_Z : KeyOk Z.
Proof. split. exact Z.eqb_eq. Qed.

#[export] Instance KeyOk_string : KeyOk string.
Proof. split. exact String.eqb_eq. Qed.

#[export] Instance KeyOk_prod {A B : Type} {KA : Key A} {KB : Key B}
  {OA : KeyOk A} {OB : KeyOk B} : KeyOk (A * B).
Proof.
  split. intros [a1 a2] [b1 b2]; simpl.
  rewrite andb_true_iff, !keqb_eq. split.
  - intros [-> ->]; reflexivity.
  - intros E; inversion E; auto.
Qed.

Section GroupByFacts.
Context {R K : Type} {KK : Key K} {OK : KeyOk K}.
Variable key : R -> K.

Lemma keqb_refl (k : K) : keqb k k = true.
  Proof. apply keqb_eq. reflexivity. Qed.

Lemma keqb_neq (a b : K) : keqb a b = false <-> a <> b.
  Proof.
    rewrite <- keqb_eq. destruct (keqb a b); split; congruence.
  Qed.

Lemma insert_key_perm (k : K) (l : list K) :
    Permutation (insert_key k l) (k :: l).
  Proof.
    induction l as [|k' l IH]; simpl; [reflexivity|].
    destruct (kleb k k'); [reflexivity|].
    rewrite IH. apply perm_swap.
  Qed.

Lemma sort_keys_perm (l : list K) : Permutation (sort_keys l) l.
  Proof.
    induction l as [|k l IH]; simpl; [reflexivity|].
    rewrite insert_key_perm, IH. reflexivity.
  Qed.

Lemma In_distinct (k : K) (l : list K) : In k (distinct l) <-> In k l.
  Proof.
    induction l as [|k0 l IH]; simpl; [reflexivity|].
    rewrite filter_In, IH, negb_true_iff, keqb_neq.
    destruct (keqb k k0) eqn:E.
    - apply keqb_eq in E. subst. tauto.
    - apply keqb_neq in E. split; [tauto|].
      intros [E'|Hk]; [congruence | auto].
  Qed.

Lemma NoDup_distinct (l : list K) : NoDup (distinct l).
  Proof.
    induction l as [|k l IH]; simpl; constructor.
    - rewrite filter_In, negb_true_iff, keqb_neq. tauto.
    - apply NoDup_filter, IH.
  Qed.

Lemma In_group_rows (r : R) (k : K) (rows : list R) :
    In r (group_rows key k rows) <-> In r rows /\ key r = k.
  Proof. unfold group_rows. rewrite filter_In, keqb_eq. reflexivity. Qed.

Lemma In_group_keys (k : K) (rows : list R) :
    In k (group_keys key rows) <-> exists r, In r rows /\ key r = k.
  Proof.
    unfold group_keys. split.
    - intros Hk. apply (Permutation_in _ (sort_keys_perm _)) in Hk.
      apply In_distinct, in_map_iff in Hk.
      destruct Hk as [r [E Hr]]. exists r. auto.
    - intros [r [Hr E]].
      apply (Permutation_in _ (Permutation_sym (sort_keys_perm _))).
      apply In_distinct, in_map_iff. exists r. auto.
  Qed.

  (** Each observed key has its output row, and only observed keys have. *)
Lemma In_groupby {V : Type} (agg : list R -> V) (rows : list R)
        (k : K) (v : V) :
    In (k, v) (groupby key agg rows)
    <-> (exists r, In r rows /\ key r = k)
        /\ v = agg (group_rows key k rows).
  Proof.
    unfold groupby. rewrite in_map_iff, <- In_group_keys. split.
    - intros [k' [E Hk']]. inversion E; subst. auto.
    - intros [Hk ->]. exists k. auto.
  Qed.

  (** One output row per key. *)
Lemma groupby_keys_NoDup {V : Type} (agg : list R -> V) (rows : list R) :
    NoDup (map fst (groupby key agg rows)).
  Proof.
    unfold groupby. rewrite map_map. simpl. rewrite map_id.
    unfold group_keys.
    apply (Permutation_NoDup (Permutation_sym (sort_keys_perm _))).
    apply NoDup_distinct.
  Qed.

Lemma groupby_isum_nonneg (val : R -> Z) (rows : list R) :
    (forall r, In r rows -> 0 <= val r) ->
    forall e, In e (groupby key (fun g => isum (map val g)) rows) ->
              0 <= snd e.
  Proof.
    intros Hpos [k v] He. apply In_groupby in He. destruct He as [_ ->].
    simpl. unfold group_rows.
    induction rows as [|r rows IH]; simpl; [lia|].
    destruct (keqb (key r) k); simpl.
    - specialize (Hpos r (or_introl eq_refl)) as Hr.
      assert (0 <= isum (map val (filter (fun r0 => keqb (key r0) k) rows)))
        by (apply IH; intros; apply Hpos; right; assumption).
      lia.
    - apply IH. intros; apply Hpos; right; assumption.
  Qed.
End GroupByFacts.

(** ** Percentages within a group *)

Lemma combine_map {A B : Type} (f : A -> B) (l : list A) :
  combine l (map f l) = map (fun x => (x, f x)) l.
Proof.
  induction l as [|x l IH]; simpl; [reflexivity|].
  rewrite IH; reflexivity.
Qed.

Lemma filter_map {A B : Type} (f : A -> B) (p : B -> bool) (l : list A) :
  filter p (map f l) = map f (filter (fun x => p (f x)) l).
Proof.
  induction l as [|x l IH]; simpl; [reflexivity|].
  destruct (p (f x)); simpl; rewrite IH; reflexivity.
Qed.

Lemma truediv_nonzero (x t : Z) :
  t <> 0 -> truediv x t = Fin (inject_Z x / inject_Z t).
Proof.
  intros Ht. unfold truediv.
  destruct (Z.eqb_spec t 0); [contradiction | reflexivity].
Qed.

Lemma inject_Z_nonzero (t : Z) : t <> 0 -> ~ inject_Z t == 0%Q.
Proof.
  intros Ht E. apply Ht.
  unfold Qeq in E; simpl in E. lia.
Qed.

(** The shares of a list of counts in a nonzero total add up to one
    hundred times their sum over that total. *)
Lemma fsum_shares (t : Z) (l : list Z) :
  t <> 0 ->
  exists q, fsum (map (fun x => truediv (100 * x) t) l) = Fin q
            /\ q == inject_Z (100 * isum l) / inject_Z t.
Proof.
  intros Ht. pose proof (inject_Z_nonzero t Ht) as Hq.
  induction l as [|x l [q [E Hqe]]].
  - exists 0%Q. split; [reflexivity|].
    change (inject_Z (100 * isum [])) with 0%Q. field. exact Hq.
  - change (fsum (map (fun x => truediv (100 * x) t) (x :: l)))
      with (fadd (truediv (100 * x) t)
                 (fsum (map (fun x => truediv (100 * x) t) l))).
    change (isum (x :: l)) with (x + isum l).
    rewrite E, truediv_nonzero by exact Ht.
    eexists; split; [reflexivity|].
    rewrite Hqe, Z.mul_add_distr_l, inject_Z_plus. field. exact Hq.
Qed.

Lemma isum_zero_nonneg (l : list Z) :
  Forall (fun x => 0 <= x) l -> isum l = 0 -> Forall (fun x => x = 0) l.
Proof.
  induction 1 as [|x l Hx Hl IH]; simpl; intros E; constructor.
  - assert (0 <= isum l) by (clear -Hl; induction Hl; simpl; lia). lia.
  - apply IH.
    assert (0 <= isum l) by (clear -Hl; induction Hl; simpl; lia). lia.
Qed.

Section SharesFacts.
Context {K G : Type} {KG : Key G} {OG : KeyOk G}.
Variable gkey : K -> G.

Lemma with_Percentatge_map (t : list (CountRow K)) :
  with_Percentatge gkey t
  = map (fun e =>
           (e, truediv (100 * snd e)
                 (isum (map snd (group_rows (fun e' => gkey (fst e'))
                                            (gkey (fst e)) t)))))
        t.
Proof. unfold with_Percentatge, transform_pct. apply combine_map. Qed.

(** The rows of a group in the percentage table are the rows of the group
    in the count table, each with its share of the group total. *)
Lemma group_of_with_Percentatge (g : G) (t : list (CountRow K)) :
  group_of gkey g (with_Percentatge gkey t)
  = map (fun e =>
           (e, truediv (100 * snd e)
                 (isum (map snd (group_rows (fun e' => gkey (fst e')) g t)))))
        (group_rows (fun e' => gkey (fst e')) g t).
Proof.
  unfold group_of. rewrite with_Percentatge_map, filter_map. simpl.
  apply map_ext_in. intros e He.
  apply (In_group_rows (fun e' => gkey (fst e'))) in He.
  destruct He as [_ ->]. reflexivity.
Qed.

Lemma group_total_with_Percentatge (g : G) (t : list (CountRow K)) :
  group_total gkey g (with_Percentatge gkey t)
  = isum (map snd (group_rows (fun e' => gkey (fst e')) g t)).
Proof.
  unfold group_total. rewrite group_of_with_Percentatge, map_map. reflexivity.
Qed.

Lemma group_pcts_with_Percentatge (g : G) (t : list (CountRow K)) :
  group_pcts gkey g (with_Percentatge gkey t)
  = map (fun x => truediv (100 * x) (group_total gkey g (with_Percentatge gkey t)))
        (map snd (group_rows (fun e' => gkey (fst e')) g t)).
Proof.
  unfold group_pcts.
  rewrite group_total_with_Percentatge, group_of_with_Percentatge, !map_map.
  reflexivity.
Qed.

(** A percentage column computed by [with_Percentatge] adds up to 100 in
    each group with a nonzero total. *)
Lemma with_Percentatge_sums_to_100 (t : list (CountRow K)) :
  sums_to_100 gkey (with_Percentatge gkey t).
Proof.
  intros g. rewrite group_pcts_with_Percentatge.
  rewrite group_total_with_Percentatge.
  set (l := map snd (group_rows (fun e' => gkey (fst e')) g t)).
  intros Ht. destruct (fsum_shares (isum l) l Ht) as [q [E Hq]].
  rewrite E. simpl. rewrite Hq, inject_Z_mult.
  field. apply inject_Z_nonzero, Ht.
Qed.

(** It is NaN throughout each group with a zero total when no count is
    negative. *)
Lemma with_Percentatge_nan_on_zero (t : list (CountRow K)) :
  (forall e, In e t -> 0 <= snd e) ->
  nan_on_zero gkey (with_Percentatge gkey t).
Proof.
  intros Hpos g. rewrite group_pcts_with_Percentatge.
  rewrite group_total_with_Percentatge.
  set (l := map snd (group_rows (fun e' => gkey (fst e')) g t)).
  intros Ht. rewrite Ht.
  assert (Hl : Forall (fun x => 0 <= x) l).
  { apply Forall_forall. intros x Hx. unfold l in Hx.
    apply in_map_iff in Hx. destruct Hx as [e [<- He]].
    apply Hpos. apply (In_group_rows (fun e' => gkey (fst e'))) in He.
    tauto. }
  apply isum_zero_nonneg in Hl; [|exact Ht].
  apply Forall_map. eapply Forall_impl; [|exact Hl].
  intros x ->. reflexivity.
Qed.

(** The percentage of a row is the true division of a hundred times its
    count by the total of its group. *)
Lemma with_Percentatge_row (t : list (CountRow K)) (e : PctRow K) :
  In e (with_Percentatge gkey t) ->
  snd e = truediv (100 * snd (fst e))
                  (group_total gkey (gkey (fst (fst e)))
                               (with_Percentatge gkey t)).
Proof.
  rewrite group_total_with_Percentatge.
  rewrite with_Percentatge_map at 1. intros He.
  apply in_map_iff in He. destruct He as [e0 [<- _]]. reflexivity.
Qed.

Lemma nan_on_zero_row (t : list (PctRow K)) (e : PctRow K) :
  nan_on_zero gkey t -> In e t ->
  group_total gkey (gkey (fst (fst e))) t = 0 -> snd e = NaN.
Proof.
  intros Hok He Hz. specialize (Hok (gkey (fst (fst e))) Hz).
  rewrite Forall_forall in Hok. apply Hok.
  unfold group_pcts, group_of. apply in_map, filter_In.
  split; [exact He | apply keqb_refl].
Qed.

Lemma with_Percentatge_rows (t : list (CountRow K)) :
  map fst (with_Percentatge gkey t) = t.
Proof.
  rewrite with_Percentatge_map, map_map. simpl. apply map_id.
Qed.
End SharesFacts.

Lemma df_filtered_incl (df : list Row) (sel : Selection) (r : Row) :
  In r (df_filtered df sel) -> In r df.
Proof. rewrite df_filtered_filter, filter_In. tauto. Qed.

Lemma stacked_data_cat_nonneg (lower : string -> string) (view : list Row) :
  (forall r, In r view -> 0 <= Nombre_de_Delictes r) ->
  forall e, In e (stacked_data_cat lower view) -> 0 <= snd e.
Proof.
  intros Hpos. unfold stacked_data_cat.
  apply (groupby_isum_nonneg _ (fun e => snd (fst e))).
  intros e He. apply in_map_iff in He. destruct He as [e0 [<- He0]]. simpl.
  revert e0 He0. unfold stacked_data.
  apply (groupby_isum_nonneg _ Nombre_de_Delictes). exact Hpos.
Qed.

Lemma resolution_counts_nonneg (lower : string -> string) (view : list Row) :
  (forall r, In r view -> 0 <= Nombre_de_Delictes r) ->
  forall e, In e (resolution_counts lower view) -> 0 <= snd e.
Proof.
  intros Hpos. unfold resolution_counts.
  apply (groupby_isum_nonneg _ (fun e => Nombre_de_Delictes (fst e))).
  intros e He. unfold resolution_data, with_Categorie in He.
  apply filter_In in He. destruct He as [He _].
  apply in_map_iff in He. destruct He as [r [<- Hr]]. simpl. auto.
Qed.

Lemma df_filtered_nonneg (df : list Row) (sel : Selection) :
  Forall (fun r => 0 <= Nombre_de_Delictes r) df ->
  forall r, In r (df_filtered df sel) -> 0 <= Nombre_de_Delictes r.
Proof.
  intros Hdf r Hr. apply df_filtered_incl in Hr.
  rewrite Forall_forall in Hdf. auto.
Qed.

(** C1, as amended.  The percentage column of the per-category table and
    the percentage column of the per-(year, category) table, as computed,
    add up to 100 in every group whose total is not zero; when no count of
    the loaded table is negative they are NaN throughout every group whose
    total is zero. *)
Theorem percentages_sum_to_100 (lower : string -> string) (df : list Row)
        (sel : Selection) :
  sums_to_100 fst (stacked_pct lower (df_filtered df sel))
  /\ sums_to_100 fst (resolution_pct lower (df_filtered df sel))
  /\ (Forall (fun r => 0 <= Nombre_de_Delictes r) df ->
      nan_on_zero fst (stacked_pct lower (df_filtered df sel))
      /\ nan_on_zero fst (resolution_pct lower (df_filtered df sel))).
Proof.
  split; [apply with_Percentatge_sums_to_100|].
  split; [apply with_Percentatge_sums_to_100|].
  intros Hdf. split; apply with_Percentatge_nan_on_zero.
  - apply stacked_data_cat_nonneg, df_filtered_nonneg, Hdf.
  - apply resolution_counts_nonneg, df_filtered_nonneg, Hdf.
Qed.

Lemma sample_df_nonneg : Forall (fun r => 0 <= Nombre_de_Delictes r) sample_df.
Proof. repeat constructor; simpl; lia. Qed.

Lemma percentages_sum_to_100_witness :
  Forall (fun r => 0 <= Nombre_de_Delictes r) sample_df
  /\ group_total fst Cat.Robatoris (stacked_pct lower_utf8 sample_view) = 180
  /\ feq (fsum (group_pcts fst Cat.Robatoris
                           (stacked_pct lower_utf8 sample_view)))
         (Fin 100)
  /\ group_total fst (2016, Cat.Frau) (resolution_pct lower_utf8 sample_view) = 0
  /\ Forall (fun p => p = NaN)
            (group_pcts fst (2016, Cat.Frau)
                        (resolution_pct lower_utf8 sample_view)).
Proof.
  destruct (percentages_sum_to_100 lower_utf8 sample_df sample_sel)
    as [Hs [_ Hz]].
  destruct (Hz sample_df_nonneg) as [_ Hr].
  assert (Ht : group_total fst (2016, Cat.Frau)
                           (resolution_pct lower_utf8 sample_view) = 0)
    by (vm_compute; reflexivity).
  split; [exact sample_df_nonneg|].
  split; [vm_compute; reflexivity|].
  split; [apply (Hs Cat.Robatoris); vm_compute; discriminate|].
  split; [exact Ht|].
  exact (Hr (2016, Cat.Frau) Ht).
Defined.

(** The statement of C1 about the rows carried into the charts fails: in
    the stacked bar chart the rows of "Robatoris" add up to less than 100,
    the 'Total de casos' row having been counted in the total and then
    removed; in the resolution chart only the 'Resolts' row of each group
    is kept. *)
Lemma charted_percentages_counterexample :
  ~ sums_to_100 fst (stacked_chart lower_utf8 sample_view)
  /\ ~ sums_to_100 fst (line_res_chart lower_utf8
                                     (df_filtered sample_df
                                        (mkSelection (2015, 2015) "Zuric"
                                                     ["Vol simple"]))).
Proof.
  split.
  - intros H. pose proof (H Cat.Robatoris) as H1.
    assert (T : group_total fst Cat.Robatoris
                            (stacked_chart lower_utf8 sample_view) <> 0)
      by (vm_compute; discriminate).
    specialize (H1 T). vm_compute in H1. discriminate H1.
  - intros H. pose proof (H (2015, Cat.Robatoris)) as H1.
    match type of H1 with ?P -> _ =>
      assert (T : P) by (vm_compute; discriminate) end.
    specialize (H1 T). vm_compute in H1. discriminate H1.
Qed.

Lemma truediv_zero_not_finite (x : Z) : is_finite (truediv x 0) = false.
Proof.
  unfold truediv. simpl.
  destruct (x =? 0); [reflexivity|]. destruct (0 <? x); reflexivity.
Qed.

(** C6. The percentage columns are computed by a division that is defined
    on a zero divisor: every row of the two count tables receives a
    percentage, the percentage of a row whose group total is zero is never
    a finite number, and it is NaN when no count of the loaded table is
    negative. *)
Theorem percentage_of_zero_total (lower : string -> string) (df : list Row)
        (sel : Selection) :
  map fst (stacked_pct lower (df_filtered df sel))
  = stacked_data_cat lower (df_filtered df sel)
  /\ map fst (resolution_pct lower (df_filtered df sel))
     = resolution_counts lower (df_filtered df sel)
  /\ (forall e, In e (stacked_pct lower (df_filtered df sel)) ->
                group_total fst (fst (fst (fst e)))
                            (stacked_pct lower (df_filtered df sel)) = 0 ->
                is_finite (snd e) = false
                /\ (Forall (fun r => 0 <= Nombre_de_Delictes r) df ->
                    snd e = NaN))
  /\ (forall e, In e (resolution_pct lower (df_filtered df sel)) ->
                group_total fst (fst (fst (fst e)))
                            (resolution_pct lower (df_filtered df sel)) = 0 ->
                is_finite (snd e) = false
                /\ (Forall (fun r => 0 <= Nombre_de_Delictes r) df ->
                    snd e = NaN)).
Proof.
  split; [apply with_Percentatge_rows|].
  split; [apply with_Percentatge_rows|].
  split; intros e He Hz; split.
  - rewrite (with_Percentatge_row fst _ e He).
    unfold stacked_pct in Hz. rewrite Hz. apply truediv_zero_not_finite.
  - intros Hdf. revert He Hz. apply nan_on_zero_row.
    apply with_Percentatge_nan_on_zero, stacked_data_cat_nonneg,
      df_filtered_nonneg, Hdf.
  - rewrite (with_Percentatge_row fst _ e He).
    unfold resolution_pct in Hz. rewrite Hz. apply truediv_zero_not_finite.
  - intros Hdf. revert He Hz. apply nan_on_zero_row.
    apply with_Percentatge_nan_on_zero, resolution_counts_nonneg,
      df_filtered_nonneg, Hdf.
Qed.

Lemma percentage_of_zero_total_witness :
  Forall (fun r => 0 <= Nombre_de_Delictes r) sample_df
  /\ In (Cat.Frau, Resolts, 0, NaN) (stacked_pct lower_utf8 sample_view)
  /\ group_total fst Cat.Frau (stacked_pct lower_utf8 sample_view) = 0
  /\ snd (Cat.Frau, Resolts, 0, NaN) = NaN.
Proof.
  assert (Hin : In (Cat.Frau, Resolts, 0, NaN)
                   (stacked_pct lower_utf8 sample_view))
    by (vm_compute; auto).
  assert (Hz : group_total fst Cat.Frau (stacked_pct lower_utf8 sample_view) = 0)
    by (vm_compute; reflexivity).
  split; [exact sample_df_nonneg|].
  split; [exact Hin|]. split; [exact Hz|].
  destruct (percentage_of_zero_total lower_utf8 sample_df sample_sel)
    as [_ [_ [Hs _]]].
  exact (proj2 (Hs (Cat.Frau, Resolts, 0, NaN) Hin Hz) sample_df_nonneg).
Defined.

(** ** The loaded table is left alone *)

Lemma nth_error_new {A : Type} (h l : list A) (i : nat) :
  nth_error (h ++ l) (List.length h + i) = nth_error l i.
Proof.
  rewrite nth_error_app2 by lia.
  replace (List.length h + i - List.length h)%nat with i by lia.
  reflexivity.
Qed.

Lemma update_new {A : Type} (h l : list A) (i : nat) (a : A) :
  update (List.length h + i) a (h ++ l) = h ++ update i a l.
Proof.
  induction h as [|x h IH]; simpl; [reflexivity|].
  rewrite IH. reflexivity.
Qed.

Lemma getitem_old (h l : Heap) (p : nat) (F : Frame) (mask : Row -> bool) :
  nth_error h p = Some F ->
  getitem p mask (h ++ l)
  = Some ((List.length h + List.length l)%nat,
          h ++ (l ++ [boolean_index F mask])).
Proof.
  intros Hp. unfold getitem.
  rewrite nth_error_app1 by (apply nth_error_Some; congruence).
  rewrite Hp, length_app, app_assoc. reflexivity.
Qed.

Lemma getitem_new (h l : Heap) (i : nat) (F : Frame) (mask : Row -> bool) :
  nth_error l i = Some F ->
  getitem (List.length h + i) mask (h ++ l)
  = Some ((List.length h + List.length l)%nat,
          h ++ (l ++ [boolean_index F mask])).
Proof.
  intros Hi. unfold getitem.
  rewrite nth_error_new, Hi, length_app, app_assoc. reflexivity.
Qed.

Lemma setitem_new (h l : Heap) (i : nat) (F : Frame) (f : string -> string) :
  nth_error l i = Some F ->
  setitem_Categorie (List.length h + i) f (h ++ l)
  = Some (tt, h ++ update i (assign_Categorie F f) l).
Proof.
  intros Hi. unfold setitem_Categorie.
  rewrite nth_error_new, Hi, update_new. reflexivity.
Qed.

Lemma boolean_index_rows (F : Frame) (mask : Row -> bool) :
  frame_rows (boolean_index F mask) = filter mask (frame_rows F).
Proof. unfold boolean_index; simpl. apply select_map. Qed.

(** The script runs to its end from any heap that holds the loaded table,
    and the heap it leaves is the initial one followed by new objects. *)
Lemma app_runs (lower : string -> string) (h : Heap) (df : nat)
      (sel : Selection) (F : Frame) :
  nth_error h df = Some F ->
  exists (fr : Frames) (l : Heap) (i : nat) (F' : Frame),
    app lower df sel h = Some (fr, h ++ l)
    /\ ref_df_filtered fr = (List.length h + i)%nat
    /\ nth_error l i = Some F'
    /\ frame_rows F' = df_filtered (frame_rows F) sel
    /\ frame_Categorie F'
       = Some (map (fun r => categoritza_delicte' lower (Tipus_de_Delicte r))
                   (frame_rows F')).
Proof.
  intros Hdf.
  assert (H0 : forall mask,
             getitem df mask h
             = Some ((List.length h + 0)%nat, h ++ [boolean_index F mask])).
  { intros mask. unfold getitem. rewrite Hdf, Nat.add_0_r. reflexivity. }
  unfold app, bind.
  destruct (negb (selected_canton sel =? "Tots")%string) eqn:Ec.
  - do 2 eexists. exists 2%nat. eexists.
    split.
    { rewrite H0.
      erewrite getitem_new by reflexivity.
      erewrite getitem_new by reflexivity.
      erewrite getitem_new by reflexivity.
      erewrite setitem_new by reflexivity.
      erewrite getitem_new by reflexivity.
      erewrite getitem_new by reflexivity.
      unfold ret. reflexivity. }
    split; [reflexivity|]. split; [reflexivity|].
    split; [|reflexivity].
    simpl. rewrite !select_map. unfold df_filtered. rewrite Ec. reflexivity.
  - do 2 eexists. exists 1%nat. eexists.
    split.
    { rewrite H0. unfold ret at 1.
      erewrite getitem_new by reflexivity.
      erewrite getitem_new by reflexivity.
      erewrite setitem_new by reflexivity.
      erewrite getitem_new by reflexivity.
      erewrite getitem_new by reflexivity.
      unfold ret. reflexivity. }
    split; [reflexivity|]. split; [reflexivity|].
    split; [|reflexivity].
    simpl. rewrite !select_map. unfold df_filtered. rewrite Ec. reflexivity.
Qed.

(** C8. Running the frame-level statements of the script from a heap that
    holds the loaded table at [df] ends normally and leaves every object
    of the initial heap, the loaded table among them, as it was; the
    filtered view is a new object, it holds the filtered rows, and the
    [Categorie] column is written into it. *)
Theorem source_table_unchanged (lower : string -> string) (h : Heap)
        (df : nat) (sel : Selection) (F : Frame) :
  nth_error h df = Some F ->
  exists (fr : Frames) (h' : Heap) (F' : Frame),
    app lower df sel h = Some (fr, h')
    /\ nth_error h' df = Some F
    /\ (forall p, (p < List.length h)%nat -> nth_error h' p = nth_error h p)
    /\ ref_df_filtered fr <> df
    /\ nth_error h' (ref_df_filtered fr) = Some F'
    /\ frame_rows F' = df_filtered (frame_rows F) sel
    /\ frame_Categorie F'
       = Some (map (fun r => categoritza_delicte' lower (Tipus_de_Delicte r))
                   (frame_rows F')).
Proof.
  intros Hdf.
  destruct (app_runs lower h df sel F Hdf)
    as [fr [l [i [F' [Happ [Href [HF' [Hrows Hcat]]]]]]]].
  assert (Hlt : (df < List.length h)%nat)
    by (apply nth_error_Some; congruence).
  exists fr, (h ++ l), F'.
  split; [exact Happ|].
  split; [rewrite nth_error_app1 by exact Hlt; exact Hdf|].
  split; [intros p Hp; apply nth_error_app1; exact Hp|].
  split; [lia|].
  split; [rewrite Href, nth_error_new; exact HF'|].
  split; assumption.
Qed.

Lemma source_table_unchanged_witness :
  nth_error sample_heap 0 = Some (mkFrame sample_df None)
  /\ exists (fr : Frames) (h' : Heap) (F' : Frame),
      app lower_utf8 0 sample_sel sample_heap = Some (fr, h')
      /\ nth_error h' 0 = Some (mkFrame sample_df None)
      /\ (forall p, (p < List.length sample_heap)%nat ->
                    nth_error h' p = nth_error sample_heap p)
      /\ ref_df_filtered fr <> 0%nat
      /\ nth_error h' (ref_df_filtered fr) = Some F'
      /\ frame_rows F' = df_filtered sample_df sample_sel
      /\ frame_Categorie F'
         = Some (map (fun r => categoritza_delicte' lower_utf8
                                                   (Tipus_de_Delicte r))
                     (frame_rows F')).
Proof.
  split; [reflexivity|].
  exact (source_table_unchanged lower_utf8 sample_heap 0 sample_sel
                                (mkFrame sample_df None) eq_refl).
Defined.

(** ** Rows of the country-level aggregate *)

Lemma cantons_cat_group (lower : string -> string) (view : list Row)
      (c cat : string) :
  c <> Switzerland ->
  map (fun e => Nombre_de_Delictes (fst e))
      (group_rows (fun e : Row * string => (Canto_norm (fst e), snd e))
                  (c, cat)
                  (filter (fun e => negb (Canto_norm (fst e) =? Switzerland)%string)
                          (with_Categorie lower view)))
  = map Nombre_de_Delictes
        (filter (fun x => (Canto_norm x =? c)%string
                          && (categoritza_delicte' lower (Tipus_de_Delicte x)
                              =? cat)%string)
                view).
Proof.
  intros Hc. unfold group_rows, with_Categorie.
  rewrite filter_filter, filter_map, map_map. simpl.
  f_equal. apply filter_ext. intros x.
  destruct (String.eqb_spec (Canto_norm x) c) as [->|Hx]; simpl.
  - destruct (String.eqb_spec c Switzerland); [contradiction | reflexivity].
  - apply andb_false_r.
Qed.

(** C10, as amended.  A row of the filtered view whose canton is
    "Switzerland" has no part in the per-canton-per-category table, which
    otherwise sums the view per canton and category; it is among the rows
    the three KPI metrics are computed from, it belongs to the group of
    its (canton, year) in the map and time-series table and to the group
    of its canton in the table behind the correlation matrix, and it
    belongs to its group in the scatter table when its resolution level is
    'Total de casos'. *)
Theorem switzerland_rows_included (lower : string -> string) (df : list Row)
        (sel : Selection) (r : Row) :
  In r (df_filtered df sel) ->
  Canto_norm r = Switzerland ->
  (forall e, In e (cantons_cat lower (df_filtered df sel)) ->
             fst (fst e) <> Switzerland)
  /\ (forall r', In r' (df_filtered df sel) ->
                 Canto_norm r' <> Switzerland ->
                 In (Canto_norm r',
                     categoritza_delicte' lower (Tipus_de_Delicte r'),
                     isum (map Nombre_de_Delictes
                             (filter (fun x =>
                                        (Canto_norm x =? Canto_norm r')%string
                                        && (categoritza_delicte' lower (Tipus_de_Delicte x)
                                            =? categoritza_delicte' lower (Tipus_de_Delicte r'))%string)
                                     (df_filtered df sel))))
                    (cantons_cat lower (df_filtered df sel)))
  /\ in_kpi df sel r
  /\ in_map_data (df_filtered df sel) r
  /\ (Nivell_de_Resolucio r = Total_de_casos ->
      in_scatter_data (df_filtered df sel) r)
  /\ in_corr_agg (df_filtered df sel) r.
Proof.
  intros Hr Hsw.
  split.
  { intros [[c cat] n] He. unfold cantons_cat in He.
    apply In_groupby in He. destruct He as [[[x xc] [Hx Ek]] _].
    apply filter_In in Hx. destruct Hx as [_ Hx]. simpl in *.
    inversion Ek; subst.
    apply negb_true_iff in Hx.
    destruct (String.eqb_spec (Canto_norm x) Switzerland); congruence. }
  split.
  { intros r' Hr' Hc. unfold cantons_cat. apply In_groupby. split.
    - exists (r', categoritza_delicte' lower (Tipus_de_Delicte r')).
      split; [|reflexivity].
      apply filter_In. split.
      + unfold with_Categorie. apply in_map_iff. exists r'. auto.
      + simpl. apply negb_true_iff.
        destruct (String.eqb_spec (Canto_norm r') Switzerland);
          [contradiction | reflexivity].
    - rewrite (cantons_cat_group lower _ _ _ Hc). reflexivity. }
  split.
  { unfold in_kpi, total_crimes, avg_crime_rate, avg_resolution.
    rewrite <- df_filtered_filter. auto. }
  split.
  { unfold in_map_data. simpl. split.
    - apply In_group_rows. auto.
    - unfold map_data. apply In_groupby. split; [|reflexivity].
      exists r. auto. }
  split.
  { intros Hlevel. unfold in_scatter_data. simpl.
    assert (Hs : In r (df_scatter (df_filtered df sel))).
    { unfold df_scatter. apply filter_In. split; [exact Hr|].
      rewrite Hlevel. apply String.eqb_refl. }
    split.
    - apply In_group_rows. auto.
    - unfold scatter_data. apply In_groupby. split; [|reflexivity].
      exists r. auto. }
  unfold in_corr_agg. simpl. split.
  - apply In_group_rows. auto.
  - unfold corr_agg. apply In_groupby. split; [|reflexivity].
    exists r. auto.
Qed.

Lemma switzerland_rows_included_witness :
  In sample_total_row sample_view
  /\ Canto_norm sample_total_row = Switzerland
  /\ in_kpi sample_df sample_sel sample_total_row
  /\ in_map_data sample_view sample_total_row
  /\ in_scatter_data sample_view sample_total_row
  /\ in_corr_agg sample_view sample_total_row
  /\ forall e, In e (cantons_cat lower_utf8 sample_view) ->
               fst (fst e) <> Switzerland.
Proof.
  assert (Hin : In sample_total_row sample_view) by (vm_compute; auto).
  destruct (switzerland_rows_included lower_utf8 sample_df sample_sel
                                      sample_total_row Hin eq_refl)
    as [Hc [_ [Hk [Hm [Hs Ha]]]]].
  split; [exact Hin|]. split; [reflexivity|].
  split; [exact Hk|]. split; [exact Hm|].
  split; [exact (Hs eq_refl)|]. split; [exact Ha | exact Hc].
Defined.

(** The statement of C10 about the scatter data fails: the 'Resolts' row
    of Switzerland passes the three filters and is in the filtered view,
    and it has no part in the scatter table, which is built from the
    'Total de casos' rows only. *)
Lemma scatter_counterexample :
  In sample_row sample_view
  /\ Canto_norm sample_row = Switzerland
  /\ passesb sample_sel sample_row = true
  /\ ~ in_scatter_data sample_view sample_row.
Proof.
  split; [vm_compute; auto 10|]. split; [reflexivity|].
  split; [reflexivity|].
  intros [H _]. apply In_group_rows in H. destruct H as [H _].
  vm_compute in H. destruct H as [H|[H|[]]]; discriminate H.
Qed.

(** ** Evaluation of the categoriser *)

Lemma prefix_app (sub s : string) :
  String.prefix sub s = true <-> exists b, s = (sub ++ b)%string.
Proof.
  revert s. induction sub as [|a sub IH]; intros s; simpl.
  - split; [intros _; exists s; reflexivity | intros _; destruct s; reflexivity].
  - destruct s as [|c s]; simpl.
    + split; [discriminate | intros [b E]; discriminate E].
    + destruct (ascii_dec a c) as [->|Hac].
      * rewrite IH. split; intros [b E]; exists b; congruence.
      * split; [discriminate | intros [b E]; congruence].
Qed.

Lemma str_in_nil (sub : string) :
  str_in sub "" = if String.prefix sub "" then true else false.
Proof. reflexivity. Qed.

Lemma str_in_cons (sub s : string) (c : ascii) :
  str_in sub (String c s)
  = if String.prefix sub (String c s) then true else str_in sub s.
Proof. reflexivity. Qed.

(** [str_in] is the substring test: [sub] occurs in [s] exactly when [s]
    splits into a part before it, [sub], and a part after it. *)
Lemma str_in_spec (sub s : string) :
  str_in sub s = true <-> exists a b, s = (a ++ sub ++ b)%string.
Proof.
  induction s as [|c s IH]; [rewrite str_in_nil | rewrite str_in_cons].
  - destruct (String.prefix sub "") eqn:E.
    + split; [intros _|reflexivity].
      apply prefix_app in E. destruct E as [b E]. exists "", b. exact E.
    + split; [discriminate|]. intros [a [b Eab]].
      destruct a; [|discriminate Eab].
      assert (String.prefix sub "" = true) by (apply prefix_app; eauto).
      congruence.
  - destruct (String.prefix sub (String c s)) eqn:E.
    + split; [intros _|reflexivity].
      apply prefix_app in E. destruct E as [b E]. exists "", b. exact E.
    + rewrite IH. split.
      * intros [a [b Eab]]. exists (String c a), b. simpl. congruence.
      * intros [a [b Eab]]. destruct a as [|c' a]; simpl in Eab.
        -- assert (String.prefix sub (String c s) = true)
             by (apply prefix_app; eauto).
           congruence.
        -- exists a, b. congruence.
Qed.

Lemma categoritza_delicte_priority_witness :
  group_matches (lower_utf8 "Vol avec Violence")
                (["violence"; "lésions"; "meurtre"], Cat.Violencia) = true
  /\ categoritza_delicte lower_utf8 "Vol avec Violence" = Cat.Robatoris.
Proof.
  split; [reflexivity|].
  destruct (categoritza_delicte_priority lower_utf8 "Vol avec Violence")
    as [_ [H _]].
  exact (H [] (["vol"; "détournement"; "dommages"], Cat.Robatoris) _
           eq_refl eq_refl eq_refl).
Defined.

Example categoritza_lesions :
  categoritza_delicte lower_utf8 "LÉSIONS corporelles simples" = Cat.Violencia.
Proof. reflexivity. Qed.

Example categoritza_escroquerie :
  categoritza_delicte lower_utf8 "Escroquerie" = Cat.Frau.
Proof. reflexivity. Qed.

Example categoritza_viol :
  categoritza_delicte lower_utf8 "Viol" = Cat.Altres.
Proof. reflexivity. Qed.

Example categoritza_violation :
  categoritza_delicte lower_utf8 "Violation de domicile" = Cat.Altres.
Proof. reflexivity. Qed.

Example kpi_metrics_sample :
  kpi_metrics sample_view = ("180", "2.42", "48.33%").
Proof. reflexivity. Qed.

(** * Further properties of the script *)

(** ** Sums over the groups of a table *)

Lemma isum_app (l1 l2 : list Z) : isum (l1 ++ l2) = isum l1 + isum l2.
Proof. induction l1 as [|x l1 IH]; simpl; [reflexivity | rewrite IH; lia]. Qed.

Lemma isum_map_add {A : Type} (f g : A -> Z) (l : list A) :
  isum (map (fun x => f x + g x) l) = isum (map f l) + isum (map g l).
Proof. induction l as [|x l IH]; simpl; [reflexivity | rewrite IH; lia]. Qed.

Lemma isum_filter_split {A : Type} (f : A -> Z) (p : A -> bool) (l : list A) :
  isum (map f l)
  = isum (map f (filter p l)) + isum (map f (filter (fun x => negb (p x)) l)).
Proof.
  induction l as [|x l IH]; simpl; [reflexivity|].
  destruct (p x); simpl; rewrite IH; lia.
Qed.

Lemma filter_all {A : Type} (l : list A) : filter (fun _ => true) l = l.
Proof. induction l as [|x l IH]; simpl; congruence. Qed.

Section GroupSums.
Context {R K : Type} {KK : Key K} {OK : KeyOk K}.
Variable key : R -> K.
Variable val : R -> Z.

Lemma isum_indicator (k0 : K) (v : Z) (ks : list K) :
  NoDup ks ->
  isum (map (fun k => if keqb k0 k then v else 0) ks)
  = if existsb (keqb k0) ks then v else 0.
Proof.
  induction 1 as [|k ks Hk Hnd IH]; simpl; [reflexivity|].
  rewrite IH. destruct (keqb k0 k) eqn:E; simpl; [|reflexivity].
  apply keqb_eq in E. subst k0.
  destruct (existsb (keqb k) ks) eqn:Ex; [|lia].
  apply existsb_exists in Ex. destruct Ex as [k' [Hin Ek]].
  apply keqb_eq in Ek. subst. contradiction.
Qed.

(** The group sums of the keys of a duplicate-free list add up to the sum
    over the rows whose key is in the list. *)
Lemma group_sums_listed (ks : list K) (rows : list R) :
  NoDup ks ->
  isum (map (fun k => isum (map val (group_rows key k rows))) ks)
  = isum (map val (filter (fun r => existsb (keqb (key r)) ks) rows)).
Proof.
  intros Hnd. induction rows as [|r rows IH].
  - simpl. induction ks; simpl; [reflexivity|].
    inversion Hnd; subst. auto.
  - transitivity
      (isum (map (fun k => (if keqb (key r) k then val r else 0)
                           + isum (map val (group_rows key k rows))) ks)).
    { f_equal. apply map_ext. intros k. unfold group_rows. simpl.
      destruct (keqb (key r) k); reflexivity. }
    rewrite isum_map_add, IH, isum_indicator by exact Hnd.
    simpl. destruct (existsb (keqb (key r)) ks); reflexivity.
Qed.

Lemma existsb_group_keys (P : K -> bool) (rows : list R) (r : R) :
  In r rows ->
  existsb (keqb (key r)) (filter P (group_keys key rows)) = P (key r).
Proof.
  intros Hr. destruct (P (key r)) eqn:EP.
  - apply existsb_exists. exists (key r). split; [|apply keqb_refl].
    apply filter_In. split; [|exact EP].
    apply In_group_keys. exists r. auto.
  - destruct (existsb _ _) eqn:Ex; [|reflexivity].
    apply existsb_exists in Ex. destruct Ex as [k [Hk Ek]].
    apply keqb_eq in Ek. subst k.
    apply filter_In in Hk. destruct Hk as [_ Hk]. congruence.
Qed.

Lemma group_keys_NoDup (rows : list R) : NoDup (group_keys key rows).
Proof.
  unfold group_keys.
  apply (Permutation_NoDup (Permutation_sym (sort_keys_perm _))).
  apply NoDup_distinct.
Qed.

(** Summing a count column of a grouped table over the output rows whose
    key satisfies [P] gives the sum over the input rows whose key
    satisfies [P]: no row is lost and none is counted twice. *)
Lemma groupby_sum_filter {V : Type} (agg : list R -> V) (proj : V -> Z)
      (P : K -> bool) (rows : list R) :
  (forall g, proj (agg g) = isum (map val g)) ->
  isum (map (fun e => proj (snd e))
            (filter (fun e => P (fst e)) (groupby key agg rows)))
  = isum (map val (filter (fun r => P (key r)) rows)).
Proof.
  intros Hproj. unfold groupby.
  rewrite filter_map, map_map. simpl.
  rewrite (map_ext _ (fun k => isum (map val (group_rows key k rows))))
    by (intros k; apply Hproj).
  rewrite group_sums_listed
    by (apply NoDup_filter, group_keys_NoDup).
  f_equal. f_equal. apply filter_ext_in. intros r Hr.
  apply existsb_group_keys. exact Hr.
Qed.

Lemma groupby_sum_all {V : Type} (agg : list R -> V) (proj : V -> Z)
      (rows : list R) :
  (forall g, proj (agg g) = isum (map val g)) ->
  isum (map (fun e => proj (snd e)) (groupby key agg rows))
  = isum (map val rows).
Proof.
  intros Hproj.
  pose proof (groupby_sum_filter agg proj (fun _ => true) rows Hproj) as H.
  cbv beta in H. rewrite !filter_all in H. exact H.
Qed.
End GroupSums.

(** ** The count tables account for every row once *)

(** X1. Each table that groups the whole filtered view keeps the total:
    the counts of [map_data], [stacked_data], [stacked_data_cat],
    [temporal_data], [bubble_data] and of the table behind the correlation
    matrix each add up to the KPI total of the view. *)
Theorem count_tables_keep_total (lower : string -> string) (view : list Row) :
  isum (map (fun e => snd (snd e)) (map_data view)) = total_crimes view
  /\ isum (map snd (stacked_data view)) = total_crimes view
  /\ isum (map snd (stacked_data_cat lower view)) = total_crimes view
  /\ isum (map snd (temporal_data lower view)) = total_crimes view
  /\ isum (map (fun e => fst (fst (fst (snd e)))) (bubble_data lower view))
     = total_crimes view
  /\ isum (map (fun e => fst (fst (fst (snd e)))) (corr_agg view))
     = total_crimes view.
Proof.
  assert (Hcat : isum (map (fun e : Row * string => Nombre_de_Delictes (fst e))
                           (with_Categorie lower view))
                 = total_crimes view).
  { unfold with_Categorie, total_crimes. rewrite map_map. reflexivity. }
  assert (Hsd : isum (map snd (stacked_data view)) = total_crimes view).
  { unfold stacked_data.
    apply (groupby_sum_all _ Nombre_de_Delictes _ (fun v => v)).
    reflexivity. }
  split.
  { unfold map_data.
    apply (groupby_sum_all _ Nombre_de_Delictes _ snd). reflexivity. }
  split; [exact Hsd|].
  split.
  { unfold stacked_data_cat.
    rewrite (groupby_sum_all _ (fun e : CountRow (string * string) * string =>
                                  snd (fst e)) _ (fun v => v))
      by reflexivity.
    rewrite map_map. exact Hsd. }
  split.
  { unfold temporal_data.
    rewrite (groupby_sum_all _ (fun e : Row * string =>
                                  Nombre_de_Delictes (fst e)) _ (fun v => v))
      by reflexivity.
    exact Hcat. }
  split.
  { unfold bubble_data.
    rewrite (groupby_sum_all _ (fun e : Row * string =>
                                  Nombre_de_Delictes (fst e)) _
                             (fun v => fst (fst (fst v))))
      by reflexivity.
    exact Hcat. }
  unfold corr_agg.
  apply (groupby_sum_all _ Nombre_de_Delictes _ (fun v => fst (fst (fst v)))).
  reflexivity.
Qed.

(** X2. The count of a (category, level) row of [stacked_data_cat], built
    in two group-by steps, is the sum of [Nombre_de_Delictes] over the
    rows of the view with that category and that resolution level, and
    the table has such a row exactly for the pairs that occur in the
    view. *)
Theorem stacked_data_cat_direct (lower : string -> string) (view : list Row)
        (c l : string) (n : Z) :
  In (c, l, n) (stacked_data_cat lower view)
  <-> (exists r, In r view
                 /\ categoritza_delicte lower (Tipus_de_Delicte r) = c
                 /\ Nivell_de_Resolucio r = l)
      /\ n = isum (map Nombre_de_Delictes
                       (filter (fun r =>
                                  (categoritza_delicte lower (Tipus_de_Delicte r)
                                   =? c)%string
                                  && (Nivell_de_Resolucio r =? l)%string)
                               view)).
Proof.
  unfold stacked_data_cat. rewrite In_groupby.
  assert (Hsum :
    isum (map (fun e : CountRow (string * string) * string => snd (fst e))
              (group_rows (fun e : CountRow (string * string) * string =>
                             (snd e, snd (fst (fst e))))
                          (c, l)
                          (map (fun e => (e, categoritza_delicte lower (fst (fst e))))
                               (stacked_data view))))
    = isum (map Nombre_de_Delictes
                (filter (fun r =>
                           (categoritza_delicte lower (Tipus_de_Delicte r) =? c)%string
                           && (Nivell_de_Resolucio r =? l)%string)
                        view))).
  { unfold group_rows. rewrite filter_map, map_map. simpl.
    unfold stacked_data.
    apply (groupby_sum_filter
             (fun r => (Tipus_de_Delicte r, Nivell_de_Resolucio r))
             Nombre_de_Delictes _ (fun v => v)
             (fun k => (categoritza_delicte lower (fst k) =? c)%string
                       && (snd k =? l)%string)).
    reflexivity. }
  cbv beta. split; intros [Hex Hn];
    (split; [|rewrite Hn; first [exact Hsum | symmetry; exact Hsum]]).
  - destruct Hex as [e [He Ek]].
    apply in_map_iff in He. destruct He as [[[t lv] m] [<- He]].
    unfold stacked_data in He. apply In_groupby in He.
    destruct He as [[r [Hr Er]] _]. simpl in Ek.
    inversion Er; subst. inversion Ek; subst. exists r. auto.
  - destruct Hex as [r [Hr [Ec El]]].
    set (m := isum (map Nombre_de_Delictes
                        (group_rows (fun x => (Tipus_de_Delicte x,
                                               Nivell_de_Resolucio x))
                                    (Tipus_de_Delicte r, Nivell_de_Resolucio r)
                                    view))).
    exists (Tipus_de_Delicte r, Nivell_de_Resolucio r, m,
            categoritza_delicte lower (Tipus_de_Delicte r)).
    split; [|simpl; congruence].
    apply in_map_iff.
    exists (Tipus_de_Delicte r, Nivell_de_Resolucio r, m).
    split; [reflexivity|].
    unfold stacked_data. apply In_groupby. split; [|reflexivity].
    exists r. auto.
Qed.

(** X3. In the per-(year, category) table the counts of a year add up to
    the count of that year in the view: the categories split each year's
    total without loss or overlap. *)
Theorem temporal_data_year_total (lower : string -> string)
        (view : list Row) (y : Z) :
  isum (map snd (filter (fun e => fst (fst e) =? y) (temporal_data lower view)))
  = isum (map Nombre_de_Delictes (filter (fun r => Any r =? y) view)).
Proof.
  unfold temporal_data.
  rewrite (groupby_sum_filter
             (fun e : Row * string => (Any (fst e), snd e))
             (fun e => Nombre_de_Delictes (fst e)) _ (fun v => v)
             (fun k => fst k =? y))
    by reflexivity.
  unfold with_Categorie. rewrite filter_map, map_map. reflexivity.
Qed.

(** X4. The KPI total counts the 'Total de casos' rows and the itemised
    rows together: it is the sum over the rows kept for the scatter plot
    plus the sum over the rows kept for the resolution chart. *)
Theorem total_crimes_counts_both (lower : string -> string) (view : list Row) :
  total_crimes view
  = total_crimes (df_scatter view)
    + isum (map (fun e => Nombre_de_Delictes (fst e))
                (resolution_data lower view)).
Proof.
  unfold total_crimes, df_scatter, resolution_data, with_Categorie.
  rewrite filter_map, map_map. simpl.
  apply isum_filter_split.
Qed.

(** ** The sidebar defaults *)

Lemma fold_min_le (l : list Z) (x : Z) :
  fold_left Z.min l x <= x /\ forall y, In y l -> fold_left Z.min l x <= y.
Proof.
  revert x. induction l as [|a l IH]; intros x; simpl.
  - split; [lia | intros y []].
  - destruct (IH (Z.min x a)) as [H1 H2]. split; [lia|].
    intros y [<-|Hy]; [lia | auto].
Qed.

Lemma fold_max_ge (l : list Z) (x : Z) :
  x <= fold_left Z.max l x /\ forall y, In y l -> y <= fold_left Z.max l x.
Proof.
  revert x. induction l as [|a l IH]; intros x; simpl.
  - split; [lia | intros y []].
  - destruct (IH (Z.max x a)) as [H1 H2]. split; [lia|].
    intros y [<-|Hy]; [lia | auto].
Qed.

Lemma column_bounds (l : list Z) (lo hi : Z) :
  column_min l = Some lo -> column_max l = Some hi ->
  forall y, In y l -> lo <= y <= hi.
Proof.
  destruct l as [|x l]; simpl; [discriminate|].
  intros Hlo Hhi y Hy. inversion Hlo; inversion Hhi; subst.
  destruct (fold_min_le l x) as [A1 A2], (fold_max_ge l x) as [B1 B2].
  destruct Hy as [<-|Hy]; [lia|].
  specialize (A2 y Hy). specialize (B2 y Hy). lia.
Qed.

Lemma filter_true_in {A : Type} (f : A -> bool) (l : list A) :
  (forall x, In x l -> f x = true) -> filter f l = l.
Proof.
  induction l as [|x l IH]; simpl; intros H; [reflexivity|].
  rewrite (H x (or_introl eq_refl)), IH; [reflexivity|].
  intros y Hy; apply H; right; exact Hy.
Qed.

(** X5. The sidebar defaults cannot be built for a table without rows
    (the year bounds are undefined); for any other table they select the
    whole table, and with the default years and offence types a chosen
    canton selects exactly the rows of that canton. *)
Theorem default_selection_whole_table (df : list Row) :
  (default_selection df = None <-> df = [])
  /\ (forall sel, default_selection df = Some sel ->
                  df_filtered df sel = df
                  /\ forall canton,
                       canton <> "Tots" ->
                       df_filtered df (mkSelection (selected_year sel) canton
                                                   (selected_offence sel))
                       = filter (fun r => (Canto_norm r =? canton)%string) df).
Proof.
  split.
  - destruct df as [|r df]; simpl.
    + split; reflexivity.
    + split; discriminate.
  - intros sel Hsel. unfold default_selection in Hsel.
    destruct (column_min (map Any df)) as [lo|] eqn:Elo; [|discriminate].
    destruct (column_max (map Any df)) as [hi|] eqn:Ehi; [|discriminate].
    inversion Hsel; subst sel; clear Hsel. simpl.
    assert (Hy : forall r, In r df -> between lo hi (Any r) = true).
    { intros r Hr. apply between_spec.
      apply (column_bounds _ _ _ Elo Ehi). apply in_map. exact Hr. }
    assert (Ho : forall r, In r df ->
                           isin (offence_options df) (Tipus_de_Delicte r) = true).
    { intros r Hr. apply isin_In. unfold offence_options.
      apply In_distinct. apply in_map. exact Hr. }
    split.
    + rewrite df_filtered_filter. apply filter_true_in.
      intros r Hr. unfold passesb; simpl. rewrite Hy, Ho by exact Hr.
      reflexivity.
    + intros canton Hc. rewrite df_filtered_filter.
      apply filter_ext_in. intros r Hr. unfold passesb; simpl.
      rewrite Hy, Ho by exact Hr.
      destruct (String.eqb_spec canton "Tots"); [contradiction|].
      simpl. apply andb_true_r.
Qed.

Lemma default_selection_whole_table_witness :
  default_selection sample_df
  = Some (mkSelection (2009, 2016) "Tots" ["Vol simple"; "Escroquerie"])
  /\ df_filtered sample_df
                 (mkSelection (2009, 2016) "Tots" ["Vol simple"; "Escroquerie"])
     = sample_df.
Proof.
  split; [reflexivity|].
  destruct (default_selection_whole_table sample_df) as [_ H].
  exact (proj1 (H _ eq_refl)).
Defined.

(** ** One output row per group *)

(** Dropping rows from a table keeps its key column free of duplicates. *)
Lemma keys_NoDup_after_filter {R K : Type} (rows : list R) (key : R -> K)
      (keep : R -> bool) (Hnd : NoDup (map key rows)) :
  NoDup (map key (filter keep rows)).
Proof.
  revert Hnd. induction rows as [|r rows IH]; simpl; intros Hnd.
  - constructor.
  - apply NoDup_cons_iff in Hnd. destruct Hnd as [Hr Hrows].
    destruct (keep r); simpl; [|exact (IH Hrows)].
    constructor; [|exact (IH Hrows)].
    intros Hin. apply Hr. apply in_map_iff in Hin.
    destruct Hin as [r' [E Hr']]. apply filter_In in Hr'.
    apply in_map_iff. exists r'. tauto.
Qed.

Lemma NoDup_map_fst_pair {A B : Type} (b : B) (l : list (A * B)) :
  (forall k, In k l -> snd k = b) -> NoDup l -> NoDup (map fst l).
Proof.
  intros Hb Hnd. apply NoDup_map_NoDup_ForallPairs; [|exact Hnd].
  intros [a1 b1] [a2 b2] H1 H2 E. simpl in E.
  apply Hb in H1. apply Hb in H2. simpl in *. congruence.
Qed.

(** X6. The choropleth receives at most one row per canton, every row is
    of the last selected year, and a canton has a row exactly when the
    view has a row of that canton in that year. *)
Theorem map_chart_one_row_per_canton (view : list Row) (sel : Selection) :
  NoDup (map (fun e => fst (fst e)) (map_chart_rows view sel))
  /\ (forall e, In e (map_chart_rows view sel) ->
                snd (fst e) = snd (selected_year sel))
  /\ (forall c, In c (map (fun e => fst (fst e)) (map_chart_rows view sel))
                <-> exists r, In r view /\ Canto_norm r = c
                              /\ Any r = snd (selected_year sel)).
Proof.
  assert (Hyear : forall e, In e (map_chart_rows view sel) ->
                            snd (fst e) = snd (selected_year sel)).
  { intros e He. unfold map_chart_rows in He. apply filter_In in He.
    destruct He as [_ He]. apply Z.eqb_eq in He. exact He. }
  split; [|split; [exact Hyear|]].
  - rewrite <- (map_map fst fst).
    apply (NoDup_map_fst_pair (snd (selected_year sel))).
    + intros k Hk. apply in_map_iff in Hk. destruct Hk as [e [<- He]].
      apply Hyear. exact He.
    + unfold map_chart_rows. apply keys_NoDup_after_filter.
      unfold map_data. apply groupby_keys_NoDup.
  - intros c. rewrite in_map_iff. split.
    + intros [[[c' y] v] [E He]]. simpl in E. subst c'.
      pose proof (Hyear _ He) as Ey. simpl in Ey. subst y.
      unfold map_chart_rows in He. apply filter_In in He.
      destruct He as [He _]. unfold map_data in He.
      apply In_groupby in He. destruct He as [[r [Hr Ek]] _].
      inversion Ek. exists r. auto.
    + intros [r [Hr [Ec Ey]]].
      eexists (c, snd (selected_year sel), _). split; [reflexivity|].
      unfold map_chart_rows. apply filter_In. split.
      * unfold map_data. apply In_groupby. split; [|reflexivity].
        exists r. split; [exact Hr | congruence].
      * simpl. apply Z.eqb_refl.
Qed.

(** ** The percentages *)

Lemma share_bounds (n t : Z) :
  0 <= n <= t -> 0 < t ->
  (0 <= inject_Z (100 * n) / inject_Z t
   /\ inject_Z (100 * n) / inject_Z t <= 100)%Q.
Proof.
  intros Hn Ht.
  assert (Hq : (inject_Z 0 < inject_Z t)%Q) by (rewrite <- Zlt_Qlt; exact Ht).
  split.
  - apply Qle_shift_div_l; [exact Hq|].
    rewrite Qmult_0_l. change 0%Q with (inject_Z 0).
    rewrite <- Zle_Qle. lia.
  - apply Qle_shift_div_r; [exact Hq|].
    change 100%Q with (inject_Z 100). rewrite <- inject_Z_mult, <- Zle_Qle. lia.
Qed.

Lemma isum_nonneg_bound (l : list Z) (x : Z) :
  Forall (fun y => 0 <= y) l -> In x l -> 0 <= x <= isum l.
Proof.
  induction 1 as [|y l Hy Hl IH]; simpl; [intros []|].
  assert (0 <= isum l) by (clear -Hl; induction Hl; simpl; lia).
  intros [<-|Hx]; [lia|]. specialize (IH Hx). lia.
Qed.

(** A percentage computed by [with_Percentatge] from non-negative counts
    is NaN or lies between 0 and 100. *)
Lemma with_Percentatge_bounded {K G : Type} {KG : Key G} {OG : KeyOk G}
      (gkey : K -> G) (t : list (CountRow K)) (e : PctRow K) :
  (forall x, In x t -> 0 <= snd x) ->
  In e (with_Percentatge gkey t) ->
  snd e = NaN \/ exists q, snd e = Fin q /\ (0 <= q <= 100)%Q.
Proof.
  intros Hpos He. rewrite with_Percentatge_map in He.
  apply in_map_iff in He. destruct He as [e0 [<- He0]]. simpl.
  match goal with
  | |- context [truediv _ (isum (map snd ?G))] => set (g := G)
  end.
  assert (Hg : Forall (fun y => 0 <= y) (map snd g)).
  { apply Forall_forall. intros y Hy. apply in_map_iff in Hy.
    destruct Hy as [x [<- Hx]]. apply Hpos.
    apply (In_group_rows (fun e' : CountRow K => gkey (fst e'))) in Hx. tauto. }
  assert (Hin : In (snd e0) (map snd g)).
  { apply in_map. apply (In_group_rows (fun e' : CountRow K => gkey (fst e'))).
    auto. }
  pose proof (isum_nonneg_bound _ _ Hg Hin) as Hb.
  destruct (Z.eq_dec (isum (map snd g)) 0) as [Ez|Hnz].
  - left. rewrite Ez. assert (snd e0 = 0) as -> by lia. reflexivity.
  - right. rewrite truediv_nonzero by exact Hnz.
    eexists. split; [reflexivity|]. apply share_bounds; lia.
Qed.

(** X7. When no count of the loaded table is negative, every percentage
    of the per-category table and of the per-(year, category) table, and
    so every percentage drawn in the two charts, is NaN or a number
    between 0 and 100; none is infinite. *)
Theorem percentages_bounded (lower : string -> string) (df : list Row)
        (sel : Selection) :
  Forall (fun r => 0 <= Nombre_de_Delictes r) df ->
  (forall e, In e (stacked_pct lower (df_filtered df sel))
             \/ In e (stacked_chart lower (df_filtered df sel)) ->
             snd e = NaN \/ exists q, snd e = Fin q /\ (0 <= q <= 100)%Q)
  /\ (forall e, In e (resolution_pct lower (df_filtered df sel))
                \/ In e (line_res_chart lower (df_filtered df sel)) ->
                snd e = NaN \/ exists q, snd e = Fin q /\ (0 <= q <= 100)%Q).
Proof.
  intros Hdf. split; intros e He.
  - assert (Hin : In e (stacked_pct lower (df_filtered df sel))).
    { destruct He as [He|He]; [exact He|].
      unfold stacked_chart in He. apply filter_In in He. tauto. }
    revert Hin. apply with_Percentatge_bounded.
    apply stacked_data_cat_nonneg, df_filtered_nonneg, Hdf.
  - assert (Hin : In e (resolution_pct lower (df_filtered df sel))).
    { destruct He as [He|He]; [exact He|].
      unfold line_res_chart in He. apply filter_In in He. tauto. }
    revert Hin. apply with_Percentatge_bounded.
    apply resolution_counts_nonneg, df_filtered_nonneg, Hdf.
Qed.

Lemma percentages_bounded_witness :
  Forall (fun r => 0 <= Nombre_de_Delictes r) sample_df
  /\ In (2015, Cat.Robatoris, Resolts, 66, Fin (6600 # 70))
        (line_res_chart lower_utf8 sample_view)
  /\ (Fin (6600 # 70) = NaN
      \/ exists q, Fin (6600 # 70) = Fin q /\ (0 <= q <= 100)%Q).
Proof.
  assert (Hin : In (2015, Cat.Robatoris, Resolts, 66, Fin (6600 # 70))
                   (line_res_chart lower_utf8 sample_view))
    by (vm_compute; auto).
  split; [exact sample_df_nonneg|]. split; [exact Hin|].
  destruct (percentages_bounded lower_utf8 sample_df sample_sel
                                sample_df_nonneg) as [_ H].
  exact (H _ (or_intror Hin)).
Defined.

Lemma resolution_data_sum (lower : string -> string) (view : list Row)
      (P : Row * string -> bool) :
  isum (map (fun e => Nombre_de_Delictes (fst e))
            (filter P (resolution_data lower view)))
  = isum (map Nombre_de_Delictes
              (filter (fun r =>
                         negb (Nivell_de_Resolucio r =? Total_de_casos)%string
                         && P (r, categoritza_delicte' lower (Tipus_de_Delicte r)))
                      view)).
Proof.
  unfold resolution_data, with_Categorie.
  rewrite filter_filter, filter_map, map_map. reflexivity.
Qed.

(** X8. A row of the per-(year, category, level) percentage table never
    has level 'Total de casos'; its count is the sum over the rows of the
    view with that year, category and level, and its percentage is a
    hundred times that count divided by the sum over the rows of the view
    with that year and category whose level is not 'Total de casos'. *)
Theorem resolution_pct_row (lower : string -> string) (view : list Row)
        (y : Z) (c lv : string) (n : Z) (p : float64) :
  In (y, c, lv, n, p) (resolution_pct lower view) ->
  lv <> Total_de_casos
  /\ n = isum (map Nombre_de_Delictes
                   (filter (fun r =>
                              (Any r =? y)
                              && (categoritza_delicte' lower (Tipus_de_Delicte r)
                                  =? c)%string
                              && (Nivell_de_Resolucio r =? lv)%string)
                           view))
  /\ p = truediv (100 * n)
                 (isum (map Nombre_de_Delictes
                            (filter (fun r =>
                                       (Any r =? y)
                                       && (categoritza_delicte' lower
                                             (Tipus_de_Delicte r) =? c)%string
                                       && negb (Nivell_de_Resolucio r
                                                =? Total_de_casos)%string)
                                    view))).
Proof.
  intros He.
  assert (Hc : In (y, c, lv, n) (resolution_counts lower view)).
  { unfold resolution_pct in He.
    rewrite <- (with_Percentatge_rows fst (resolution_counts lower view)).
    apply in_map_iff. exists (y, c, lv, n, p). auto. }
  unfold resolution_counts in Hc. apply In_groupby in Hc.
  destruct Hc as [[[r rc] [Hr Ek]] Hn]. simpl in Ek.
  assert (Hlv : lv <> Total_de_casos).
  { unfold resolution_data in Hr. apply filter_In in Hr.
    destruct Hr as [_ Hr]. simpl in Hr. apply negb_true_iff in Hr.
    inversion Ek; subst.
    destruct (String.eqb_spec (Nivell_de_Resolucio r) Total_de_casos);
      congruence. }
  split; [exact Hlv|]. split.
  - rewrite Hn. unfold group_rows. rewrite resolution_data_sum.
    f_equal. f_equal. apply filter_ext. intros x. simpl.
    destruct (String.eqb_spec (Nivell_de_Resolucio x) lv) as [->|Hx].
    + destruct (String.eqb_spec lv Total_de_casos); [contradiction|].
      simpl. reflexivity.
    + rewrite !andb_false_r. reflexivity.
  - pose proof (with_Percentatge_row fst _ _ He) as Hp.
    cbn [fst snd] in Hp. rewrite Hp. f_equal.
    rewrite group_total_with_Percentatge.
    unfold group_rows, resolution_counts.
    rewrite (groupby_sum_filter
               (fun e : Row * string =>
                  (Any (fst e), snd e, Nivell_de_Resolucio (fst e)))
               (fun e => Nombre_de_Delictes (fst e)) _ (fun v => v)
               (fun k => keqb (fst k) (y, c)))
      by reflexivity.
    rewrite resolution_data_sum.
    f_equal. f_equal. apply filter_ext. intros x. simpl.
    rewrite andb_comm. reflexivity.
Qed.

(** X9. The resolution line chart has at most one point per year and
    category, and every point is a 'Resolts' row. *)
Theorem line_res_chart_one_point (lower : string -> string) (view : list Row) :
  NoDup (map (fun e => fst (fst (fst e))) (line_res_chart lower view))
  /\ forall e, In e (line_res_chart lower view) -> snd (fst (fst e)) = Resolts.
Proof.
  assert (Hl : forall e, In e (line_res_chart lower view) ->
                         snd (fst (fst e)) = Resolts).
  { intros e He. unfold line_res_chart in He. apply filter_In in He.
    destruct He as [_ He]. apply String.eqb_eq in He. exact He. }
  split; [|exact Hl].
  assert (E : forall L : list (PctRow (Z * string * string)),
             map (fun e => fst (fst (fst e))) L
             = map fst (map (fun e => fst (fst e)) L))
    by (intros L; rewrite map_map; reflexivity).
  rewrite E.
  apply (NoDup_map_fst_pair Resolts).
  - intros k Hk. apply in_map_iff in Hk. destruct Hk as [e [<- He]].
    apply Hl. exact He.
  - unfold line_res_chart. apply keys_NoDup_after_filter.
    rewrite <- (map_map fst fst). unfold resolution_pct.
    rewrite with_Percentatge_rows. unfold resolution_counts.
    apply groupby_keys_NoDup.
Qed.

Lemma resolution_pct_row_witness :
  In (2015, Cat.Robatoris, Resolts, 66, Fin (6600 # 70))
     (resolution_pct lower_utf8 sample_view)
  /\ Resolts <> Total_de_casos
  /\ 66 = isum (map Nombre_de_Delictes
                    (filter (fun r =>
                               (Any r =? 2015)
                               && (categoritza_delicte' lower_utf8 (Tipus_de_Delicte r)
                                   =? Cat.Robatoris)%string
                               && (Nivell_de_Resolucio r =? Resolts)%string)
                            sample_view)).
Proof.
  assert (Hin : In (2015, Cat.Robatoris, Resolts, 66, Fin (6600 # 70))
                   (resolution_pct lower_utf8 sample_view))
    by (vm_compute; auto).
  destruct (resolution_pct_row lower_utf8 sample_view _ _ _ _ _ Hin)
    as [H1 [H2 _]].
  split; [exact Hin|]. split; [exact H1 | exact H2].
Defined.



(** ** The categoriser and substrings *)

(** X11. A label is put in "Altres" exactly when none of the twelve
    keywords occurs anywhere in its lower-cased form, be it inside a
    longer word. *)
Theorem categoritza_delicte_Altres_iff (lower : string -> string) (d : string) :
  categoritza_delicte lower d = Cat.Altres
  <-> forall kw, In kw all_keywords ->
                 ~ exists a b, lower d = (a ++ kw ++ b)%string.
Proof.
  split.
  - intros H kw Hin Hex.
    apply str_in_spec in Hex.
    unfold categoritza_delicte in H.
    unfold all_keywords, keyword_groups in Hin. simpl in Hin.
    repeat (destruct Hin as [<-|Hin];
            [rewrite Hex in H; rewrite ?orb_true_r in H; simpl in H;
             repeat match type of H with
                    | context [if ?b then _ else _] => destruct b
                    end; discriminate H|]).
    exact Hin.
  - intros H.
    assert (N : forall kw, In kw all_keywords -> str_in kw (lower d) = false).
    { intros kw Hin. destruct (str_in kw (lower d)) eqn:E; [|reflexivity].
      exfalso. apply (H kw Hin). apply str_in_spec. exact E. }
    unfold categoritza_delicte.
    rewrite !N by (unfold all_keywords, keyword_groups; simpl; auto 20).
    reflexivity.
Qed.

(** ** Narrowing the selection and empty views *)

Lemma isum_filter_le {A : Type} (f : A -> Z) (p q : A -> bool) (l : list A) :
  (forall x, In x l -> 0 <= f x) ->
  (forall x, In x l -> p x = true -> q x = true) ->
  isum (map f (filter p l)) <= isum (map f (filter q l)).
Proof.
  induction l as [|x l IH]; simpl; intros Hpos Hpq; [lia|].
  assert (IH' : isum (map f (filter p l)) <= isum (map f (filter q l)))
    by (apply IH; intros; [apply Hpos | apply Hpq]; auto).
  pose proof (Hpos x (or_introl eq_refl)) as Hx.
  pose proof (Hpq x (or_introl eq_refl)) as Hx'.
  destruct (p x); simpl.
  - rewrite (Hx' eq_refl). simpl. lia.
  - destruct (q x); simpl; lia.
Qed.

(** X12. When no count is negative, narrowing the selection never raises
    the KPI total: a year range inside the other one, the same canton (or
    any canton against "Tots") and fewer offence types give a total that
    is at most the other total. *)
Theorem total_crimes_monotone (df : list Row) (sel1 sel2 : Selection) :
  Forall (fun r => 0 <= Nombre_de_Delictes r) df ->
  fst (selected_year sel2) <= fst (selected_year sel1) ->
  snd (selected_year sel1) <= snd (selected_year sel2) ->
  selected_canton sel2 = "Tots"
  \/ (selected_canton sel1 <> "Tots"
      /\ selected_canton sel1 = selected_canton sel2) ->
  incl (selected_offence sel1) (selected_offence sel2) ->
  total_crimes (df_filtered df sel1) <= total_crimes (df_filtered df sel2).
Proof.
  intros Hdf Hlo Hhi Hc Hoff. unfold total_crimes.
  rewrite !df_filtered_filter. apply isum_filter_le.
  - rewrite Forall_forall in Hdf. exact Hdf.
  - intros r _ Hp. apply passesb_spec in Hp. apply passesb_spec.
    destruct Hp as [Hy [Hcan Ho]]. split; [lia|]. split.
    + destruct Hc as [Hc|[Hn Hc]]; [left; exact Hc|].
      right. destruct Hcan as [Hcan|Hcan]; congruence.
    + apply Hoff. exact Ho.
Qed.

Lemma total_crimes_monotone_witness :
  total_crimes (df_filtered sample_df
                            (mkSelection (2015, 2015) "Zuric" ["Vol simple"]))
  <= total_crimes (df_filtered sample_df sample_sel).
Proof.
  apply total_crimes_monotone.
  - exact sample_df_nonneg.
  - simpl. lia.
  - simpl. lia.
  - left. reflexivity.
  - intros o [<-|[]]. simpl. auto.
Defined.

Lemma In_canton_options (df : list Row) (c : string) :
  In c (canton_options df)
  <-> c = "Tots" \/ exists r, In r df /\ Canto_norm r = c.
Proof.
  unfold canton_options.
  change (sort_keys (distinct (map Canto_norm df)))
    with (group_keys Canto_norm df).
  split.
  - intros [E|H]; [left; auto | right; apply In_group_keys in H; exact H].
  - intros [->|H]; [left; reflexivity | right; apply In_group_keys; exact H].
Qed.

(** X13. A view is empty when the year range is inverted, and when the
    canton is not one the selector offers; the mean metrics are NaN
    exactly on an empty view, and the three metric texts of an empty view
    are "0", "nan" and "nan%". *)
Theorem empty_view_cases (df : list Row) (sel : Selection) :
  (snd (selected_year sel) < fst (selected_year sel) ->
   df_filtered df sel = [])
  /\ (~ In (selected_canton sel) (canton_options df) ->
      df_filtered df sel = [])
  /\ (avg_crime_rate (df_filtered df sel) = NaN <-> df_filtered df sel = [])
  /\ (avg_resolution (df_filtered df sel) = NaN <-> df_filtered df sel = [])
  /\ (df_filtered df sel = [] ->
      kpi_metrics (df_filtered df sel) = ("0", "nan", "nan%")).
Proof.
  assert (Hnone : (forall r, In r df -> ~ passes sel r) ->
                  df_filtered df sel = []).
  { intros H. rewrite df_filtered_filter.
    induction df as [|r df IH]; simpl; [reflexivity|].
    destruct (passesb sel r) eqn:E.
    - apply passesb_spec in E. exfalso. exact (H r (or_introl eq_refl) E).
    - apply IH. intros x Hx. apply H. right. exact Hx. }
  split; [|split; [|split; [|split]]].
  - intros Hinv. apply Hnone. intros r _ [Hy _]. lia.
  - intros Hc. apply Hnone. intros r Hr [_ [Hcan _]]. apply Hc.
    apply In_canton_options. destruct Hcan as [->|<-]; [left; reflexivity|].
    right. exists r. auto.
  - unfold avg_crime_rate.
    destruct (df_filtered df sel); simpl; split; congruence.
  - unfold avg_resolution.
    destruct (df_filtered df sel); simpl; split; congruence.
  - intros ->. reflexivity.
Qed.

(** ** The frames derived from the filtered view *)

Lemma resolution_data_combine (lower : string -> string) (view : list Row) :
  resolution_data lower view
  = combine (filter (fun r => negb (Nivell_de_Resolucio r =? Total_de_casos)%string)
                    view)
            (map (fun r => categoritza_delicte' lower (Tipus_de_Delicte r))
                 (filter (fun r => negb (Nivell_de_Resolucio r =? Total_de_casos)%string)
                         view)).
Proof.
  rewrite combine_map. unfold resolution_data, with_Categorie.
  rewrite filter_map. reflexivity.
Qed.

(** X14. The frame [df_scatter] is taken from the filtered view before
    the [Categorie] column is assigned and does not get it (when the
    loaded table has no such column); [resolution_data] and the rows fed
    to [cantons_cat] are taken afterwards and carry the column, aligned
    with their rows, so the later group-bys on [Categorie] find it.  The
    four frames are distinct new objects. *)
Theorem derived_frames (lower : string -> string) (h : Heap) (df : nat)
        (sel : Selection) (F : Frame) :
  nth_error h df = Some F ->
  exists (fr : Frames) (h' : Heap) (Fs Fr Fc : Frame) (cats : list string),
    app lower df sel h = Some (fr, h')
    /\ nth_error h' (ref_df_scatter fr) = Some Fs
    /\ frame_rows Fs = df_scatter (df_filtered (frame_rows F) sel)
    /\ (frame_Categorie F = None -> frame_Categorie Fs = None)
    /\ nth_error h' (ref_resolution_data fr) = Some Fr
    /\ frame_Categorie Fr = Some cats
    /\ combine (frame_rows Fr) cats
       = resolution_data lower (df_filtered (frame_rows F) sel)
    /\ nth_error h' (ref_cantons_rows fr) = Some Fc
    /\ frame_rows Fc
       = filter (fun r => negb (Canto_norm r =? Switzerland)%string)
                (df_filtered (frame_rows F) sel)
    /\ frame_Categorie Fc
       = Some (map (fun r => categoritza_delicte' lower (Tipus_de_Delicte r))
                   (frame_rows Fc))
    /\ NoDup [df; ref_df_filtered fr; ref_df_scatter fr;
              ref_resolution_data fr; ref_cantons_rows fr].
Proof.
  intros Hdf.
  assert (Hlt : (df < List.length h)%nat)
    by (apply nth_error_Some; congruence).
  assert (H0 : forall mask,
             getitem df mask h
             = Some ((List.length h + 0)%nat, h ++ [boolean_index F mask])).
  { intros mask. unfold getitem. rewrite Hdf, Nat.add_0_r. reflexivity. }
  assert (Hnd : forall a b c d : nat,
             (List.length h <= a < b)%nat -> (b < c)%nat -> (c < d)%nat ->
             NoDup [df; a; b; c; d]).
  { intros a b c d Ha Hb Hc.
    repeat (constructor; [simpl; lia|]). constructor. }
  unfold app, bind.
  destruct (negb (selected_canton sel =? "Tots")%string) eqn:Ec.
  - do 6 eexists. split.
    { rewrite H0.
      erewrite getitem_new by reflexivity.
      erewrite getitem_new by reflexivity.
      erewrite getitem_new by reflexivity.
      erewrite setitem_new by reflexivity.
      erewrite getitem_new by reflexivity.
      erewrite getitem_new by reflexivity.
      unfold ret. reflexivity. }
    cbn [ref_df_filtered ref_df_scatter ref_resolution_data ref_cantons_rows].
    rewrite !nth_error_new. cbn [List.length app update nth_error].
    split; [reflexivity|].
    split; [simpl; rewrite !select_map; unfold df_filtered; rewrite Ec;
            reflexivity|].
    split; [simpl; intros ->; reflexivity|].
    split; [reflexivity|].
    split; [simpl; rewrite select_map_map; reflexivity|].
    split; [simpl; rewrite !select_map; rewrite resolution_data_combine;
            unfold df_filtered; rewrite Ec; reflexivity|].
    split; [reflexivity|].
    split; [simpl; rewrite !select_map; unfold df_filtered; rewrite Ec;
            reflexivity|].
    split; [simpl; rewrite select_map_map, !select_map; reflexivity|].
    apply Hnd; simpl; lia.
  - do 6 eexists. split.
    { rewrite H0. unfold ret at 1.
      erewrite getitem_new by reflexivity.
      erewrite getitem_new by reflexivity.
      erewrite setitem_new by reflexivity.
      erewrite getitem_new by reflexivity.
      erewrite getitem_new by reflexivity.
      unfold ret. reflexivity. }
    cbn [ref_df_filtered ref_df_scatter ref_resolution_data ref_cantons_rows].
    rewrite !nth_error_new. cbn [List.length app update nth_error].
    split; [reflexivity|].
    split; [simpl; rewrite !select_map; unfold df_filtered; rewrite Ec;
            reflexivity|].
    split; [simpl; intros ->; reflexivity|].
    split; [reflexivity|].
    split; [simpl; rewrite select_map_map; reflexivity|].
    split; [simpl; rewrite !select_map; rewrite resolution_data_combine;
            unfold df_filtered; rewrite Ec; reflexivity|].
    split; [reflexivity|].
    split; [simpl; rewrite !select_map; unfold df_filtered; rewrite Ec;
            reflexivity|].
    split; [simpl; rewrite select_map_map, !select_map; reflexivity|].
    apply Hnd; simpl; lia.
Qed.

Lemma derived_frames_witness :
  nth_error sample_heap 0 = Some (mkFrame sample_df None)
  /\ exists (fr : Frames) (h' : Heap) (Fs Fr Fc : Frame) (cats : list string),
      app lower_utf8 0 sample_sel sample_heap = Some (fr, h')
      /\ nth_error h' (ref_df_scatter fr) = Some Fs
      /\ frame_rows Fs = df_scatter (df_filtered sample_df sample_sel)
      /\ (frame_Categorie (mkFrame sample_df None) = None ->
          frame_Categorie Fs = None)
      /\ nth_error h' (ref_resolution_data fr) = Some Fr
      /\ frame_Categorie Fr = Some cats
      /\ combine (frame_rows Fr) cats
         = resolution_data lower_utf8 (df_filtered sample_df sample_sel)
      /\ nth_error h' (ref_cantons_rows fr) = Some Fc
      /\ frame_rows Fc
         = filter (fun r => negb (Canto_norm r =? Switzerland)%string)
                  (df_filtered sample_df sample_sel)
      /\ frame_Categorie Fc
         = Some (map (fun r => categoritza_delicte' lower_utf8
                                                   (Tipus_de_Delicte r))
                     (frame_rows Fc))
      /\ NoDup [0%nat; ref_df_filtered fr; ref_df_scatter fr;
                ref_resolution_data fr; ref_cantons_rows fr].
Proof.
  split; [reflexivity|].
  exact (derived_frames lower_utf8 sample_heap 0 sample_sel
                        (mkFrame sample_df None) eq_refl).
Defined.

(** ** Tables built from a part of the view *)

(** X15. The counts of the per-(year, category, level) table add up to
    the total of the rows of the view that are not 'Total de casos', and
    the counts of the per-canton-per-category table to the total of the
    rows whose canton is not "Switzerland". *)
Theorem partial_tables_totals (lower : string -> string) (view : list Row) :
  isum (map snd (resolution_counts lower view))
  = isum (map Nombre_de_Delictes
              (filter (fun r => negb (Nivell_de_Resolucio r =? Total_de_casos)%string)
                      view))
  /\ isum (map snd (cantons_cat lower view))
     = isum (map Nombre_de_Delictes
                 (filter (fun r => negb (Canto_norm r =? Switzerland)%string)
                         view)).
Proof.
  split.
  - unfold resolution_counts.
    rewrite (groupby_sum_all _ (fun e : Row * string =>
                                  Nombre_de_Delictes (fst e)) _ (fun v => v))
      by reflexivity.
    unfold resolution_data, with_Categorie.
    rewrite filter_map, map_map. reflexivity.
  - unfold cantons_cat.
    rewrite (groupby_sum_all _ (fun e : Row * string =>
                                  Nombre_de_Delictes (fst e)) _ (fun v => v))
      by reflexivity.
    unfold with_Categorie. rewrite filter_map, map_map. reflexivity.
Qed.

(** X16. Every row of the scatter table stands for a non-empty group of
    'Total de casos' rows of the view with its canton and year: its mean
    rate is a number, and its GDP, foreign share and population are those
    of the first row of the group in table order, never missing. *)
Theorem scatter_data_values (view : list Row) (c : string) (y : Z)
        (v : float64 * option Q * option Q * option Z) :
  In (c, y, v) (scatter_data view) ->
  exists (r : Row) (g : list Row),
    group_rows (fun x => (Canto_norm x, Any x)) (c, y) (df_scatter view)
    = r :: g
    /\ In r view
    /\ Canto_norm r = c /\ Any r = y
    /\ Nivell_de_Resolucio r = Total_de_casos
    /\ v = (mean (map Taxa_Criminalitat_per_1000 (r :: g)),
            Some (PIB_per_Capita r),
            Some (Percentatge_Estrangers r),
            Some (Poblacio_Total r))
    /\ is_finite (fst (fst (fst v))) = true.
Proof.
  intros He. unfold scatter_data in He. apply In_groupby in He.
  destruct He as [[r0 [Hr0 Ek]] Hv].
  assert (Hin : In r0 (group_rows (fun x => (Canto_norm x, Any x)) (c, y)
                                  (df_scatter view)))
    by (apply In_group_rows; auto).
  destruct (group_rows (fun x => (Canto_norm x, Any x)) (c, y)
                       (df_scatter view)) as [|r g] eqn:Eg; [destruct Hin|].
  exists r, g. split; [reflexivity|].
  assert (Hr : In r (r :: g)) by (left; reflexivity).
  rewrite <- Eg in Hr. apply In_group_rows in Hr. destruct Hr as [Hr Hk].
  unfold df_scatter in Hr. apply filter_In in Hr. destruct Hr as [Hv' Hl].
  apply String.eqb_eq in Hl. inversion Hk; subst.
  repeat (split; [solve [auto]|]). reflexivity.
Qed.

Lemma scatter_data_values_witness :
  In ("Switzerland", 2015,
      (Fin (3 # 1), Some (70000 # 1)%Q, Some (25 # 1)%Q, Some 8300000))
     (scatter_data sample_view)
  /\ exists (r : Row) (g : list Row),
      group_rows (fun x => (Canto_norm x, Any x)) ("Switzerland", 2015)
                 (df_scatter sample_view) = r :: g
      /\ In r sample_view
      /\ Canto_norm r = "Switzerland" /\ Any r = 2015
      /\ Nivell_de_Resolucio r = Total_de_casos
      /\ (Fin (3 # 1), Some (70000 # 1)%Q, Some (25 # 1)%Q, Some 8300000)
         = (mean (map Taxa_Criminalitat_per_1000 (r :: g)),
            Some (PIB_per_Capita r),
            Some (Percentatge_Estrangers r),
            Some (Poblacio_Total r))
      /\ is_finite (Fin (3 # 1)) = true.
Proof.
  assert (Hin : In ("Switzerland", 2015,
                    (Fin (3 # 1), Some (70000 # 1)%Q, Some (25 # 1)%Q,
                     Some 8300000))
                   (scatter_data sample_view))
    by (vm_compute; auto).
  split; [exact Hin|].
  exact (scatter_data_values sample_view _ _ _ Hin).
Defined.

(** ** The order of the output rows *)

#[export] Instance KeyTotal_Z : KeyTotal Z.
Proof. split. intros a b. simpl. rewrite !Z.leb_le. lia. Qed.

#[export] Instance KeyTotal_string : KeyTotal string.
Proof. split. exact String.leb_total. Qed.

#[export] Instance KeyTotal_prod {A B : Type} {KA : Key A} {KB : Key B}
  {OA : KeyOk A} {TA : KeyTotal A} {TB : KeyTotal B} : KeyTotal (A * B).
Proof.
  split. intros [a1 a2] [b1 b2]. simpl.
  destruct (keqb a1 b1) eqn:E.
  - apply keqb_eq in E. subst b1. rewrite keqb_refl. apply kleb_total.
  - assert (E' : keqb b1 a1 = false).
    { apply keqb_neq. apply keqb_neq in E. congruence. }
    rewrite E'. apply kleb_total.
Qed.

Section SortedKeys.
Context {K : Type} {KK : Key K} {TK : KeyTotal K}.

Lemma insert_key_sorted (k : K) (l : list K) :
  Sorted (fun a b => kleb a b = true) l ->
  Sorted (fun a b => kleb a b = true) (insert_key k l).
Proof.
  induction l as [|a l IH]; simpl; intros Hs.
  - repeat constructor.
  - destruct (kleb k a) eqn:E.
    + constructor; [exact Hs | constructor; exact E].
    + inversion Hs as [|? ? Hl Hhd]; subst.
      assert (Hak : kleb a k = true)
        by (destruct (kleb_total a k); congruence).
      constructor; [apply IH; exact Hl|].
      destruct l as [|b l]; simpl.
      * constructor. exact Hak.
      * destruct (kleb k b); constructor; [exact Hak|].
        inversion Hhd; assumption.
Qed.

Lemma sort_keys_sorted (l : list K) :
  Sorted (fun a b => kleb a b = true) (sort_keys l).
Proof.
  induction l as [|k l IH]; simpl; [constructor|].
  apply insert_key_sorted. exact IH.
Qed.
End SortedKeys.

Lemma groupby_sorted {R K V : Type} {KK : Key K} {TK : KeyTotal K}
      (key : R -> K) (agg : list R -> V) (rows : list R) :
  Sorted (fun a b => kleb a b = true) (map fst (groupby key agg rows)).
Proof.
  unfold groupby. rewrite map_map. simpl. rewrite map_id.
  unfold group_keys. apply sort_keys_sorted.
Qed.

(** X17. The tables behind the line charts list their rows in ascending
    key order, each row at most its successor: [map_data] by canton and
    then year, [temporal_data] by year and then category, and the
    resolution counts by year, category and level. *)
Theorem line_chart_tables_sorted (lower : string -> string) (view : list Row) :
  Sorted (fun a b => kleb a b = true) (map fst (map_data view))
  /\ Sorted (fun a b => kleb a b = true) (map fst (temporal_data lower view))
  /\ Sorted (fun a b => kleb a b = true)
            (map fst (resolution_counts lower view)).
Proof.
  split; [|split]; apply groupby_sorted.
Qed.

(** X18. The percentage of a (category, level) row of the per-category
    table is a hundred times its count divided by the sum over all rows
    of the view with that category, whatever their resolution level. *)
Theorem stacked_pct_row (lower : string -> string) (view : list Row)
        (c l : string) (n : Z) (p : float64) :
  In (c, l, n, p) (stacked_pct lower view) ->
  p = truediv (100 * n)
              (isum (map Nombre_de_Delictes
                         (filter (fun r =>
                                    (categoritza_delicte lower (Tipus_de_Delicte r)
                                     =? c)%string)
                                 view))).
Proof.
  intros He.
  pose proof (with_Percentatge_row fst _ _ He) as Hp.
  cbn [fst snd] in Hp. rewrite Hp. f_equal.
  rewrite group_total_with_Percentatge.
  unfold group_rows, stacked_data_cat.
  rewrite (groupby_sum_filter
             (fun e : CountRow (string * string) * string =>
                (snd e, snd (fst (fst e))))
             (fun e => snd (fst e)) _ (fun v => v)
             (fun k => keqb (fst k) c))
    by reflexivity.
  rewrite filter_map, map_map. simpl.
  unfold stacked_data.
  apply (groupby_sum_filter
           (fun r => (Tipus_de_Delicte r, Nivell_de_Resolucio r))
           Nombre_de_Delictes _ (fun v => v)
           (fun k => (categoritza_delicte lower (fst k) =? c)%string)).
  reflexivity.
Qed.

Lemma stacked_pct_row_witness :
  In (Cat.Robatoris, Resolts, 66, Fin (6600 # 180))
     (stacked_pct lower_utf8 sample_view)
  /\ Fin (6600 # 180)
     = truediv (100 * 66)
               (isum (map Nombre_de_Delictes
                          (filter (fun r =>
                                     (categoritza_delicte lower_utf8
                                        (Tipus_de_Delicte r)
                                      =? Cat.Robatoris)%string)
                                  sample_view))).
Proof.
  assert (Hin : In (Cat.Robatoris, Resolts, 66, Fin (6600 # 180))
                   (stacked_pct lower_utf8 sample_view))
    by (vm_compute; auto).
  split; [exact Hin|].
  exact (stacked_pct_row lower_utf8 sample_view _ _ _ _ Hin).
Defined.
